(** * SE Shop backend: cart, user and product route handlers

    A shallow embedding of the Express route handlers of
    [routes/cart.router.js], [routes/user.router.js] and the product router,
    with the properties of their HTTP contract.

    Modelling conventions.
    - A MongoDB collection is the list of its documents in natural
      (insertion) order; [findOne] yields the first match.
    - A handler is a computation over the collection and the Express
      response object.  A JavaScript exception is the [Throw] completion;
      state changes made before a throw persist, as they do in JavaScript.
    - Request bodies and path parameters are values of the documented
      (swagger) schema: every required field is present with its declared
      type, ids are well-formed ObjectIds.  The schemas under models/ are
      not part of the sources: their casts and validators are taken to
      accept every value of the declared type.
    - A JavaScript number is an IEEE 754 binary64 value ([float]), and the
      [+] of the handlers is the addition of such values: it rounds, and it
      is exact on integers only up to 2^53.
    - [new Model(..)] draws a fresh ObjectId from the driver; the id drawn for
      a request is an argument of the handler. *)

From Stdlib Require Import String ZArith List Bool Lia Floats.
Import ListNotations.
Open Scope string_scope.
Open Scope list_scope.
Open Scope Z_scope.
Set Warnings "-register-all".

(** ** JavaScript values and control *)

Module JS.

(** What [res.json] serialises. *)
Inductive JSON : Type :=
| JNull
| JBool (b : bool)
| JNumber (x : float)
| JString (s : string)
| JArray (items : list JSON)
| JObject (fields : list (string * JSON)).

Class ToJSON (A : Type) := toJSON : A -> JSON.

#[global] Instance ToJSON_list {A} `{ToJSON A} : ToJSON (list A) :=
  fun l => JArray (map toJSON l).

(** [null] and [undefined] both serialise to [null] at the top level. *)
#[global] Instance ToJSON_option {A} `{ToJSON A} : ToJSON (option A) :=
  fun o => match o with Some a => toJSON a | None => JNull end.

(** What JSON.stringify writes for a number: [null] for NaN and the
    infinities, [0] for both zeros, the number itself otherwise. *)
Definition number_json (x : float) : JSON :=
  if PrimFloat.is_finite x
  then JNumber (if PrimFloat.eqb x PrimFloat.zero then PrimFloat.zero else x)
  else JNull.

(** The number that an integer count is: the nearest binary64 value. *)
Definition number_of_Z (z : Z) : float :=
  SF2Prim (binary_normalize prec emax z 0 false).

(** The object literal [{ message: m }]. *)
Definition message_body (m : string) : JSON := JObject [("message", JString m)].

(** ToBoolean, as used by [if (x)] and [!x]. *)
Class Truthy (A : Type) := truthy : A -> bool.

(** The empty string is falsy, every other string is truthy. *)
#[global] Instance Truthy_string : Truthy string :=
  fun s => negb (s =? "")%string.

(** An array is an object: truthy, also when it is empty. *)
#[global] Instance Truthy_list {A} : Truthy (list A) := fun _ => true.

(** [null] and [undefined] are falsy. *)
#[global] Instance Truthy_option {A} `{Truthy A} : Truthy (option A) :=
  fun o => match o with Some a => truthy a | None => false end.

(** How a statement list ends: normally, or by a thrown [Error] of which
    the handlers only read [error.message]. *)
Inductive completion (A : Type) : Type :=
| Normal (a : A)
| Throw (message : string).
Arguments Normal {A} a.
Arguments Throw {A} message.

End JS.
Import JS.

(** ** The Express response object *)

Module Express.

(** [statusCode] is the mutable field set by [res.status]; [sent] is what
    went on the wire, fixed by the first [res.json]. *)
Record Response : Type := mkResponse {
  statusCode : Z;
  sent : option (Z * JSON)
}.

(** A response starts unsent with status 200. *)
Definition fresh : Response := {| statusCode := 200; sent := None |}.

Definition ERR_HTTP_HEADERS_SENT : string :=
  "Cannot set headers after they are sent to the client".

(** [res.status(code)] only assigns the field. *)
Definition status (code : Z) (r : Response) : Response :=
  {| statusCode := code; sent := sent r |}.

(** [res.json(body)] writes status and body once; on a response that is
    already sent, setting the Content-Type header throws. *)
Definition json (body : JSON) (r : Response) : Response * completion unit :=
  match sent r with
  | Some _ => (r, Throw ERR_HTTP_HEADERS_SENT)
  | None => ({| statusCode := statusCode r; sent := Some (statusCode r, body) |},
             Normal tt)
  end.

End Express.

(** ** Handler computations *)

Definition ObjectId : Type := string.

Class Document (D : Type) := _id : D -> ObjectId.

Section Handler.
Context {D : Type}.

(** The world a handler runs in: its model's collection and [res]. *)
Record World : Type := mkWorld {
  db : list D;
  res : Express.Response
}.

Definition M (A : Type) : Type := World -> World * completion A.

Definition ret {A} (a : A) : M A := fun w => (w, Normal a).

Definition bind {A B} (c : M A) (k : A -> M B) : M B :=
  fun w =>
    match c w with
    | (w', Normal a) => k a w'
    | (w', Throw e) => (w', Throw e)
    end.

Definition throw {A} (message : string) : M A := fun w => (w, Throw message).

(** [try { body } catch (error) { handler(error.message) }] *)
Definition try_catch {A} (body : M A) (handler : string -> M A) : M A :=
  fun w =>
    match body w with
    | (w', Normal a) => (w', Normal a)
    | (w', Throw e) => handler e w'
    end.

(** [res.status(code)] *)
Definition status (code : Z) : M unit :=
  fun w => ({| db := db w; res := Express.status code (res w) |}, Normal tt).

(** [res.json(body)] *)
Definition json (body : JSON) : M unit :=
  fun w =>
    let (r, c) := Express.json body (res w) in
    ({| db := db w; res := r |}, c).

(** Runs a handler on a collection with a fresh response. *)
Definition run {A} (h : M A) (store : list D) : World * completion A :=
  h {| db := store; res := Express.fresh |}.

(** The response the client receives, if any. *)
Definition response {A} (out : World * completion A) : option (Z * JSON) :=
  Express.sent (res (fst out)).

(** The collection after the handler. *)
Definition stored {A} (out : World * completion A) : list D := db (fst out).

(** A rejection that escaped the handler's own [catch]. *)
Definition uncaught {A} (out : World * completion A) : option string :=
  match snd out with Normal _ => None | Throw e => Some e end.

End Handler.
Arguments World D : clear implicits.
Arguments M D A : clear implicits.

Declare Scope handler_scope.
Delimit Scope handler_scope with handler.
Notation "x <- c ;; k" := (bind c (fun x => k))
  (at level 61, c at next level, right associativity) : handler_scope.
Notation "c ;; k" := (bind c (fun _ => k))
  (at level 61, right associativity) : handler_scope.
Open Scope handler_scope.

(** ** Mongoose model operations *)

Module Mongoose.
Section Model.
Context {D : Type} `{Document D}.

Definition has_id (id : ObjectId) (d : D) : bool := (_id d =? id)%string.

(** Replaces the first document satisfying [p] by its image under [upd]
    and tells whether one matched. *)
Fixpoint update_first (p : D -> bool) (upd : D -> D) (l : list D) : list D * bool :=
  match l with
  | [] => ([], false)
  | d :: l' =>
      if p d then (upd d :: l', true)
      else let (l'', hit) := update_first p upd l' in (d :: l'', hit)
  end.

(** Removes the first document satisfying [p]. *)
Fixpoint remove_first (p : D -> bool) (l : list D) : list D :=
  match l with
  | [] => []
  | d :: l' => if p d then l' else d :: remove_first p l'
  end.

(** [Model.find(filter)]: an array, possibly empty. *)
Definition find (p : D -> bool) : M D (list D) :=
  fun w => (w, Normal (filter p (db w))).

(** [Model.findOne(filter)]: the first match or [null]. *)
Definition findOne (p : D -> bool) : M D (option D) :=
  fun w => (w, Normal (List.find p (db w))).

(** [Model.findById(id)] *)
Definition findById (id : ObjectId) : M D (option D) := findOne (has_id id).

Definition E11000 : string := "E11000 duplicate key error collection".

(** [doc.save()] on a new document: insertOne; the unique index on [_id]
    rejects an id that is already stored. *)
Definition save_new (d : D) : M D unit :=
  fun w =>
    if existsb (has_id (_id d)) (db w) then (w, Throw E11000)
    else ({| db := db w ++ [d]; res := res w |}, Normal tt).

Definition DocumentNotFoundError : string := "No document found for query".

(** [doc.save()] on a document read from the collection:
    updateOne({ _id }, { $set: modified paths }), [set] being the
    assignment of the modified paths. *)
Definition save_modified (d : D) (set : D -> D) : M D unit :=
  fun w =>
    let (l, hit) := update_first (has_id (_id d)) set (db w) in
    if hit then ({| db := l; res := res w |}, Normal tt)
    else (w, Throw DocumentNotFoundError).

Record DeleteResult : Type := mkDeleteResult {
  acknowledged : bool;
  deletedCount : Z
}.

(** [Model.deleteMany(filter)] *)
Definition deleteMany (p : D -> bool) : M D DeleteResult :=
  fun w =>
    ({| db := filter (fun d => negb (p d)) (db w); res := res w |},
     Normal {| acknowledged := true;
               deletedCount := Z.of_nat (length (filter p (db w))) |}).

(** [Model.findByIdAndDelete(id)]: removes the document and yields it, or
    yields [null]. *)
Definition findByIdAndDelete (id : ObjectId) : M D (option D) :=
  fun w =>
    ({| db := remove_first (has_id id) (db w); res := res w |},
     Normal (List.find (has_id id) (db w))).

(** [Model.findByIdAndUpdate(id, update, { new: true })]: applies the update
    to the document with that id and yields the document as updated, or
    yields [null]. *)
Definition findByIdAndUpdate (id : ObjectId) (upd : D -> D) : M D (option D) :=
  fun w =>
    ({| db := fst (update_first (has_id id) upd (db w)); res := res w |},
     Normal (option_map upd (List.find (has_id id) (db w)))).

End Model.

#[global] Instance ToJSON_DeleteResult : ToJSON DeleteResult :=
fun r => JObject [("acknowledged", JBool (acknowledged r));
                  ("deletedCount", number_json (number_of_Z (deletedCount r)))].

End Mongoose.

(** The primary-key index of a collection: no two documents share an
    [_id]. *)
Definition unique_ids {D} `{Document D} (store : list D) : Prop :=
  NoDup (map _id store).

(** The [catch] block shared by every handler:
    [res.status(500).json({ message: error.message })]. *)
Definition catch_500 {D} (error : string) : M D unit :=
  status 500 ;; json (message_body error).

(** ** routes/cart.router.js *)

Module CartRouter.

(** The Cart schema: the request body of POST /carts and the fields of a
    stored cart item. *)
Record Cart : Type := mkCart {
  productId : string;
  name : string;
  email : string;
  image : string;
  price : float;
  quantity : float
}.

(** A stored cart item. *)
Record CartDoc : Type := mkCartDoc {
  id : ObjectId;
  fields : Cart
}.

#[global] Instance Document_CartDoc : Document CartDoc := id.

(** A document is an object: truthy. *)
#[global] Instance Truthy_CartDoc : Truthy CartDoc := fun _ => true.

Definition cart_fields (c : Cart) : list (string * JSON) :=
  [("productId", JString (productId c)); ("name", JString (name c));
   ("email", JString (email c)); ("image", JString (image c));
   ("price", number_json (price c)); ("quantity", number_json (quantity c))].

#[global] Instance ToJSON_Cart : ToJSON Cart := fun c => JObject (cart_fields c).

#[global] Instance ToJSON_CartDoc : ToJSON CartDoc :=
  fun d => JObject (("_id", JString (id d)) :: cart_fields (fields d)).

(** [doc.quantity = q] *)
Definition set_quantity (q : float) (d : CartDoc) : CartDoc :=
  {| id := id d;
     fields := {| productId := productId (fields d); name := name (fields d);
                  email := email (fields d); image := image (fields d);
                  price := price (fields d); quantity := q |} |}.

(** The filter [{ email }]. *)
Definition by_email (e : string) (d : CartDoc) : bool :=
  (email (fields d) =? e)%string.

(** The filter [{ productId: cart.productId, email: cart.email }]. *)
Definition same_item (cart : Cart) (d : CartDoc) : bool :=
  (productId (fields d) =? productId cart)%string
  && (email (fields d) =? email cart)%string.

(** [new CartModel(cart)] with the id drawn for it. *)
Definition new_CartModel (oid : ObjectId) (cart : Cart) : CartDoc :=
  {| id := oid; fields := cart |}.

(** [router.get("/:email")]: the 404 statement is not followed by a
    [return]. *)
Definition get_by_email (email : string) : M CartDoc unit :=
  try_catch
    (carts <- Mongoose.find (by_email email) ;;
     (if negb (truthy carts)
      then status 404 ;; json (message_body "Cart item not found")
      else ret tt) ;;
     json (toJSON carts))
    catch_500.

(** [router.post("/")] *)
Definition post (cart : Cart) (oid : ObjectId) : M CartDoc unit :=
  try_catch
    (existingCart <- Mongoose.findOne (same_item cart) ;;
     match existingCart with
     | Some existingCart =>
         (* existingCart.quantity += cart.quantity *)
         let q := PrimFloat.add (quantity (fields existingCart)) (quantity cart) in
         let existingCart := set_quantity q existingCart in
         Mongoose.save_modified existingCart (set_quantity q) ;;
         status 200 ;; json (toJSON cart)
     | None =>
         let newCart := new_CartModel oid cart in
         Mongoose.save_new newCart ;;
         status 201 ;; json (toJSON newCart)
     end)
    catch_500.

(** [router.delete("/clear/:email")] *)
Definition delete_clear (email : string) : M CartDoc unit :=
  try_catch
    (deletedCart <- Mongoose.deleteMany (by_email email) ;;
     if 0 <? Mongoose.deletedCount deletedCart
     then status 200 ;; json (toJSON deletedCart)
     else status 404 ;; json (message_body "Empty cart"))
    catch_500.

(** The (productId, email) pair of a stored item. *)
Definition key (d : CartDoc) : string * string :=
  (productId (fields d), email (fields d)).

(** At most one cart item per (productId, email) pair. *)
Definition one_per_pair (store : list CartDoc) : Prop := NoDup (map key store).

(** Two cart items that agree on every field but, possibly, the quantity. *)
Definition same_but_quantity (d d' : CartDoc) : Prop :=
  id d' = id d /\
  productId (fields d') = productId (fields d) /\
  name (fields d') = name (fields d) /\
  email (fields d') = email (fields d) /\
  image (fields d') = image (fields d) /\
  price (fields d') = price (fields d).

(** A sample collection and two sample payloads: one for a stored pair, one
    for a pair that is not stored. *)
Definition sample_carts : list CartDoc :=
  [mkCartDoc "65a1" (mkCart "p1" "Macbook Pro" "worapakorn@gmail.com" "macbook.png" 2000 5);
   mkCartDoc "65a2" (mkCart "p2" "Mouse" "worapakorn@gmail.com" "mouse.png" 20 1);
   mkCartDoc "65a3" (mkCart "p1" "Macbook Pro" "other@gmail.com" "macbook.png" 2000 2)].

Definition sample_stored_pair : Cart :=
  mkCart "p2" "Mouse (renamed)" "worapakorn@gmail.com" "new.png" 25 3.

Definition sample_new_pair : Cart :=
  mkCart "p3" "Keyboard" "worapakorn@gmail.com" "keyboard.png" 90 1.

(** A stored quantity of 2^53, where adding 1 rounds back to 2^53, and a
    payload of a half for its pair. *)
Definition sample_large_carts : list CartDoc :=
  [mkCartDoc "65a7" (mkCart "p7" "Screw" "bulk@gmail.com" "screw.png" 0.5 9007199254740992)].

Definition sample_one_more : Cart :=
  mkCart "p7" "Screw" "bulk@gmail.com" "screw.png" 0.5 1.

(** [router.get("/")]: [CartModel.find()] has no filter. *)
Definition get_all : M CartDoc unit :=
  try_catch
    (carts <- Mongoose.find (fun _ => true) ;;
     json (toJSON carts))
    catch_500.

(** The update document [req.body] of PUT /carts/:id: every field of the
    schema is assigned, the id stays. *)
Definition assign (body : Cart) (d : CartDoc) : CartDoc :=
  {| id := id d; fields := body |}.

(** [router.put("/:id")] (its [console.log] writes to the process output
    only). *)
Definition put (id : ObjectId) (body : Cart) : M CartDoc unit :=
  try_catch
    (cart <- Mongoose.findByIdAndUpdate id (assign body) ;;
     if negb (truthy cart)
     then status 404 ;; json (message_body "Cart not found")
     else json (toJSON cart))
    catch_500.

(** [router.delete("/:id")] *)
Definition delete_by_id (id : ObjectId) : M CartDoc unit :=
  try_catch
    (cart <- Mongoose.findByIdAndDelete id ;;
     if negb (truthy cart)
     then status 404 ;; json (message_body "Cart not found")
     else json (toJSON cart))
    catch_500.

End CartRouter.

(** ** routes/user.router.js *)

Module UserRouter.

(** The User schema: the request body of POST /users and the fields of a
    stored user.  [photoURL] and [role] may be left out of a body. *)
Record User : Type := mkUser {
  name : string;
  email : string;
  photoURL : option string;
  role : option string
}.

(** A stored user. *)
Record UserDoc : Type := mkUserDoc {
  id : ObjectId;
  fields : User
}.

#[global] Instance Document_UserDoc : Document UserDoc := id.

(** A document is an object: truthy. *)
#[global] Instance Truthy_UserDoc : Truthy UserDoc := fun _ => true.

(** JSON.stringify leaves out a property whose value is [undefined]. *)
Definition optional (key : string) (v : option string) : list (string * JSON) :=
  match v with Some s => [(key, JString s)] | None => [] end.

Definition user_fields (u : User) : list (string * JSON) :=
  [("name", JString (name u)); ("email", JString (email u))]
  ++ optional "photoURL" (photoURL u) ++ optional "role" (role u).

#[global] Instance ToJSON_UserDoc : ToJSON UserDoc :=
  fun d => JObject (("_id", JString (id d)) :: user_fields (fields d)).

(** [req.body.photoURL = url] *)
Definition set_photoURL (url : string) (u : User) : User :=
  {| name := name u; email := email u; photoURL := Some url; role := role u |}.

(** [req.body.role = r] *)
Definition set_role (r : string) (u : User) : User :=
  {| name := name u; email := email u; photoURL := photoURL u; role := Some r |}.

(** The filter [{ email }]. *)
Definition by_email (e : string) (d : UserDoc) : bool :=
  (email (fields d) =? e)%string.

(** [new UserModel(user)] with the id drawn for it. *)
Definition new_UserModel (oid : ObjectId) (user : User) : UserDoc :=
  {| id := oid; fields := user |}.

Definition placeholder_photoURL : string :=
  "https://daisyui.com/images/stock/photo-1534528741775-53994a69daeb.jpg".

(** [router.get("/:id")]: the 404 statement is not followed by a
    [return]. *)
Definition get_by_id (id : ObjectId) : M UserDoc unit :=
  try_catch
    (user <- Mongoose.findById id ;;
     (if negb (truthy user)
      then status 404 ;; json (message_body "User is not found")
      else ret tt) ;;
     json (toJSON user))
    catch_500.

(** [router.post("/")]: [user] and [req.body] are one object, so the
    defaults assigned to [req.body] are seen by [new UserModel(user)]. *)
Definition post (user : User) (oid : ObjectId) : M UserDoc unit :=
  try_catch
    (existingUser <- Mongoose.findOne (by_email (email user)) ;;
     if truthy existingUser
     then status 302 ;; json (message_body "User already exists")
     else
       let user := if negb (truthy (photoURL user))
                   then set_photoURL placeholder_photoURL user else user in
       let user := if negb (truthy (role user))
                   then set_role "user" user else user in
       let newUser := new_UserModel oid user in
       Mongoose.save_new newUser ;;
       status 201 ;; json (toJSON newUser))
    catch_500.

Definition TypeError_role : string :=
  "Cannot read properties of null (reading 'role')".

(** [user.role]: reading a property of [null] throws a TypeError. *)
Definition get_role (user : option UserDoc) : M UserDoc (option string) :=
  match user with
  | Some u => ret (role (fields u))
  | None => throw TypeError_role
  end.

(** [r === "admin"] *)
Definition is_admin_role (r : option string) : bool :=
  match r with Some s => (s =? "admin")%string | None => false end.

(** [router.get("/admin/:email", verifyToken, ..)]: the handler that runs
    once the verifyToken middleware has passed the request on. *)
Definition get_admin (email : string) : M UserDoc unit :=
  try_catch
    (user <- Mongoose.findOne (by_email email) ;;
     let isAdmin := false in
     r <- get_role user ;;
     let isAdmin := if is_admin_role r then true else isAdmin in
     json (JObject [("isAdmin", JBool isAdmin)]))
    catch_500.

Definition sample_users : list UserDoc :=
  [mkUserDoc "65b1" (mkUser "Worapakorn" "worapakorn@gmail.com" (Some "me.jpg") (Some "admin"));
   mkUserDoc "65b2" (mkUser "Guest" "guest@gmail.com" (Some "guest.jpg") (Some "user"))].

Definition sample_new_user : User :=
  mkUser "New" "new@gmail.com" None None.

(** [router.get("/")] *)
Definition get_all : M UserDoc unit :=
  try_catch
    (users <- Mongoose.find (fun _ => true) ;;
     json (toJSON users))
    catch_500.

(** A property of the update document that is left out is not assigned. *)
Definition or_stored (given stored : option string) : option string :=
  match given with Some s => Some s | None => stored end.

(** The update document [req.body] of PUT /users/:id: the fields it has are
    assigned, the id stays. *)
Definition assign (body : User) (d : UserDoc) : UserDoc :=
  {| id := id d;
     fields := {| name := name body; email := email body;
                  photoURL := or_stored (photoURL body) (photoURL (fields d));
                  role := or_stored (role body) (role (fields d)) |} |}.

(** [router.put("/:id")] *)
Definition put (id : ObjectId) (body : User) : M UserDoc unit :=
  try_catch
    (user <- Mongoose.findByIdAndUpdate id (assign body) ;;
     if negb (truthy user)
     then status 404 ;; json (message_body "User not found")
     else json (toJSON user))
    catch_500.

(** [router.delete("/:id")] *)
Definition delete_by_id (id : ObjectId) : M UserDoc unit :=
  try_catch
    (user <- Mongoose.findByIdAndDelete id ;;
     if negb (truthy user)
     then status 404 ;; json (message_body "User not found")
     else json (toJSON user))
    catch_500.

(** The update document [{ role: r }]. *)
Definition assign_role (r : string) (d : UserDoc) : UserDoc :=
  {| id := id d; fields := set_role r (fields d) |}.

(** The handler shared by the two role routes, once verifyToken and
    verifyAdmin have passed the request on. *)
Definition patch_role (r : string) (id : ObjectId) : M UserDoc unit :=
  try_catch
    (updatedUser <- Mongoose.findByIdAndUpdate id (assign_role r) ;;
     if negb (truthy updatedUser)
     then status 404 ;; json (message_body "User not found")
     else json (toJSON updatedUser))
    catch_500.

(** [router.patch("/user/:id", verifyToken, verifyAdmin, ..)] *)
Definition patch_user (id : ObjectId) : M UserDoc unit := patch_role "user" id.

(** [router.patch("/admin/:id", verifyToken, verifyAdmin, ..)] *)
Definition patch_admin (id : ObjectId) : M UserDoc unit := patch_role "admin" id.

(** At most one user per email. *)
Definition one_per_email (users : list UserDoc) : Prop :=
  NoDup (map (fun u => email (fields u)) users).

End UserRouter.

(** ** The product router *)

Module ProductRouter.

(** The Product schema. *)
Record Product : Type := mkProduct {
  name : string;
  price : float;
  description : string;
  image : string;
  category : string
}.

(** A stored product. *)
Record ProductDoc : Type := mkProductDoc {
  id : ObjectId;
  fields : Product
}.

#[global] Instance Document_ProductDoc : Document ProductDoc := id.

(** A document is an object: truthy. *)
#[global] Instance Truthy_ProductDoc : Truthy ProductDoc := fun _ => true.

#[global] Instance ToJSON_ProductDoc : ToJSON ProductDoc :=
  fun d => JObject [("_id", JString (id d));
                    ("name", JString (name (fields d)));
                    ("price", number_json (price (fields d)));
                    ("description", JString (description (fields d)));
                    ("image", JString (image (fields d)));
                    ("category", JString (category (fields d)))].

(** [router.delete("/:id")] *)
Definition delete_by_id (id : ObjectId) : M ProductDoc unit :=
  try_catch
    (product <- Mongoose.findByIdAndDelete id ;;
     if negb (truthy product)
     then status 404 ;; json (message_body "Product not found")
     else json (toJSON product))
    catch_500.

Definition sample_products : list ProductDoc :=
  [mkProductDoc "65c1" (mkProduct "Macbook Pro" 2000 "A great laptop" "macbook.png" "Electronics");
   mkProductDoc "65c2" (mkProduct "Mouse" 20 "A mouse" "mouse.png" "Electronics")].

(** [router.get("/")] *)
Definition get_all : M ProductDoc unit :=
  try_catch
    (products <- Mongoose.find (fun _ => true) ;;
     json (toJSON products))
    catch_500.

(** [router.get("/:id")]: the 404 statement returns. *)
Definition get_by_id (id : ObjectId) : M ProductDoc unit :=
  try_catch
    (product <- Mongoose.findById id ;;
     if negb (truthy product)
     then status 404 ;; json (message_body "Product not found")
     else json (toJSON product))
    catch_500.

(** [new ProductModel(req.body)] with the id drawn for it. *)
Definition new_ProductModel (oid : ObjectId) (body : Product) : ProductDoc :=
  {| id := oid; fields := body |}.

(** [router.post("/")]: the document is built before the [try]; [save]
    resolves to the document saved. *)
Definition post (body : Product) (oid : ObjectId) : M ProductDoc unit :=
  let newProduct := new_ProductModel oid body in
  try_catch
    (product <- (Mongoose.save_new newProduct ;; ret newProduct) ;;
     status 201 ;; json (toJSON product))
    catch_500.

(** The update document [req.body] of PUT /products/:id. *)
Definition assign (body : Product) (d : ProductDoc) : ProductDoc :=
  {| id := id d; fields := body |}.

(** [router.put("/:id")] (its [console.log] writes to the process output
    only). *)
Definition put (id : ObjectId) (body : Product) : M ProductDoc unit :=
  try_catch
    (product <- Mongoose.findByIdAndUpdate id (assign body) ;;
     if negb (truthy product)
     then status 404 ;; json (message_body "Product not found")
     else json (toJSON product))
    catch_500.

End ProductRouter.

(** * Properties *)

(** ** Facts about the collection operations *)

Section MongooseFacts.
Context {D : Type} `{Document D}.

Lemma has_id_true (i : ObjectId) (d : D) :
  Mongoose.has_id i d = true <-> _id d = i.
Proof. unfold Mongoose.has_id. apply String.eqb_eq. Qed.

Lemma has_id_false (i : ObjectId) (d : D) :
  Mongoose.has_id i d = false <-> _id d <> i.
Proof. unfold Mongoose.has_id. apply String.eqb_neq. Qed.

(** The first match splits the collection around it. *)
Lemma find_split (p : D -> bool) (l : list D) (d : D) :
  List.find p l = Some d ->
  exists l1 l2,
    l = l1 ++ d :: l2 /\ p d = true /\ forallb (fun x => negb (p x)) l1 = true.
Proof.
  induction l as [|a l IH]; simpl; [discriminate|].
  destruct (p a) eqn:Ha.
  - intros [= ->]. exists [], l. auto.
  - intros Hf. destruct (IH Hf) as (l1 & l2 & -> & Hd & Hl1).
    exists (a :: l1), l2. simpl. rewrite Ha. auto.
Qed.

(** Where nothing before it matches, the update lands on the match. *)
Lemma update_first_at (p : D -> bool) (upd : D -> D) (l1 l2 : list D) (d : D) :
  forallb (fun x => negb (p x)) l1 = true -> p d = true ->
  Mongoose.update_first p upd (l1 ++ d :: l2) = (l1 ++ upd d :: l2, true).
Proof.
  induction l1 as [|a l1 IH]; simpl; intros Hl1 Hd.
  - now rewrite Hd.
  - apply andb_true_iff in Hl1 as [Ha Hl1].
    apply negb_true_iff in Ha. rewrite Ha, (IH Hl1 Hd). reflexivity.
Qed.

(** Under the primary-key index a document is the first one with its id. *)
Lemma unique_ids_before (l1 l2 : list D) (d : D) :
  unique_ids (l1 ++ d :: l2) ->
  forallb (fun x => negb (Mongoose.has_id (_id d) x)) l1 = true.
Proof.
  unfold unique_ids. induction l1 as [|a l1 IH]; simpl; intros Hn; [reflexivity|].
  inversion Hn as [|? ? Hnotin Hrest]; subst.
  rewrite (IH Hrest), andb_true_r. apply negb_true_iff, has_id_false.
  intros Heq. apply Hnotin. rewrite Heq, map_app. apply in_or_app. right. now left.
Qed.

(** An update that keeps [f] of every document keeps [map f]. *)
Lemma update_first_map {K} (f : D -> K) (p : D -> bool) (upd : D -> D) (l : list D) :
  (forall x, f (upd x) = f x) ->
  map f (fst (Mongoose.update_first p upd l)) = map f l.
Proof.
  intros Hf. induction l as [|a l IH]; simpl; [reflexivity|].
  destruct (p a); simpl; [now rewrite Hf|].
  destruct (Mongoose.update_first p upd l); simpl in *. now rewrite IH.
Qed.

Lemma remove_first_at (p : D -> bool) (l1 l2 : list D) (d : D) :
  forallb (fun x => negb (p x)) l1 = true -> p d = true ->
  Mongoose.remove_first p (l1 ++ d :: l2) = l1 ++ l2.
Proof.
  induction l1 as [|a l1 IH]; simpl; intros Hl1 Hd.
  - now rewrite Hd.
  - apply andb_true_iff in Hl1 as [Ha Hl1].
    apply negb_true_iff in Ha. rewrite Ha, (IH Hl1 Hd). reflexivity.
Qed.

Lemma remove_first_none (p : D -> bool) (l : list D) :
  List.find p l = None -> Mongoose.remove_first p l = l.
Proof.
  induction l as [|a l IH]; simpl; [reflexivity|].
  destruct (p a); [discriminate|]. intros Hf. now rewrite IH.
Qed.

Lemma filter_none (p : D -> bool) (l : list D) :
  existsb p l = false -> filter p l = [] /\ filter (fun d => negb (p d)) l = l.
Proof.
  induction l as [|a l IH]; simpl; [auto|].
  destruct (p a); simpl; [discriminate|].
  intros Hl. destruct (IH Hl) as [-> ->]. auto.
Qed.

Lemma filter_some (p : D -> bool) (l : list D) :
  existsb p l = true -> (0 < Z.of_nat (length (filter p l)))%Z.
Proof.
  induction l as [|a l IH]; simpl; [discriminate|].
  destruct (p a); simpl; [lia|exact IH].
Qed.

Lemma find_at (p : D -> bool) (l1 l2 : list D) (d : D) :
  forallb (fun x => negb (p x)) l1 = true -> p d = true ->
  List.find p (l1 ++ d :: l2) = Some d.
Proof.
  induction l1 as [|a l1 IH]; simpl; intros Hl1 Hd.
  - now rewrite Hd.
  - apply andb_true_iff in Hl1 as [Ha Hl1].
    apply negb_true_iff in Ha. rewrite Ha. now apply IH.
Qed.

(** Under the primary-key index, looking a stored document up by its id
    finds that document. *)
Lemma find_by_own_id (l : list D) (d : D) :
  unique_ids l -> In d l ->
  exists l1 l2,
    l = l1 ++ d :: l2 /\
    forallb (fun x => negb (Mongoose.has_id (_id d) x)) l1 = true /\
    ~ In (_id d) (map _id (l1 ++ l2)).
Proof.
  intros Huniq Hin. destruct (in_split _ _ Hin) as (l1 & l2 & ->).
  exists l1, l2. split; [reflexivity|]. split.
  - now apply unique_ids_before with (l2 := l2).
  - unfold unique_ids in Huniq. rewrite map_app in Huniq. simpl in Huniq.
    apply NoDup_remove_2 in Huniq. now rewrite map_app.
Qed.

Lemma absent_id (i : ObjectId) (l : list D) :
  ~ In i (map _id l) -> List.find (Mongoose.has_id i) l = None.
Proof.
  intros Hnotin. destruct (List.find (Mongoose.has_id i) l) as [d|] eqn:Hf;
    [|reflexivity].
  apply find_some in Hf as [Hd Hi]. apply has_id_true in Hi.
  elim Hnotin. rewrite <- Hi. now apply in_map.
Qed.

Lemma fresh_id (i : ObjectId) (l : list D) :
  ~ In i (map _id l) -> existsb (Mongoose.has_id i) l = false.
Proof.
  intros Hnotin. destruct (existsb (Mongoose.has_id i) l) eqn:He; [|reflexivity].
  apply existsb_exists in He as (d & Hd & Hi). apply has_id_true in Hi.
  elim Hnotin. rewrite <- Hi. now apply in_map.
Qed.

End MongooseFacts.

Lemma NoDup_snoc {A} (l : list A) (a : A) :
  NoDup l -> ~ In a l -> NoDup (l ++ [a]).
Proof.
  induction l as [|b l IH]; simpl; intros Hl Ha.
  - constructor; [tauto|constructor].
  - inversion Hl as [|? ? Hb Hl']; subst. constructor.
    + intros Hin. apply in_app_or in Hin as [Hin|[->|[]]]; tauto.
    + apply IH; tauto.
Qed.

(** Concrete collections: the index holds by inspection of the ids. *)
Ltac concrete_nodup :=
  repeat (constructor; [simpl; intuition discriminate|]); constructor.

(** ** Cart items *)

Section CartFacts.
Import CartRouter.

Lemma set_quantity_key (q : float) (d : CartDoc) : key (set_quantity q d) = key d.
Proof. reflexivity. Qed.

Lemma same_item_key (cart : Cart) (d : CartDoc) :
  same_item cart d = true <-> key d = (productId cart, email cart).
Proof.
  unfold same_item, key. rewrite andb_true_iff, !String.eqb_eq.
  split; [intros [-> ->]; reflexivity|intros [= -> ->]; auto].
Qed.

(** A payload that matches no stored item has a pair no stored item has. *)
Lemma no_match_new_key (cart : Cart) (store : list CartDoc) :
  List.find (same_item cart) store = None ->
  ~ In (productId cart, email cart) (map key store).
Proof.
  intros Hf Hin. apply in_map_iff in Hin as (d & Hk & Hd).
  apply (find_none _ _ Hf) in Hd. apply same_item_key in Hk. congruence.
Qed.

(** The merge branch, run to its end. *)
Lemma post_merge_run (store : list CartDoc) (cart : Cart) (oid : ObjectId) (d : CartDoc) :
  unique_ids store ->
  List.find (same_item cart) store = Some d ->
  exists l1 l2,
    store = l1 ++ d :: l2 /\
    run (post cart oid) store =
      ({| db := l1 ++ set_quantity (PrimFloat.add (quantity (fields d)) (quantity cart)) d :: l2;
          res := {| Express.statusCode := 200;
                    Express.sent := Some (200, toJSON cart) |} |},
       Normal tt).
Proof.
  intros Huniq Hfind.
  destruct (find_split _ _ _ Hfind) as (l1 & l2 & -> & _ & _).
  exists l1, l2. split; [reflexivity|].
  unfold run, post, try_catch, bind, Mongoose.findOne. cbn [db].
  rewrite Hfind. unfold Mongoose.save_modified. cbn [db res].
  change (_id (set_quantity (PrimFloat.add (quantity (fields d)) (quantity cart)) d)) with (_id d).
  rewrite update_first_at;
    [reflexivity | now apply unique_ids_before with (l2 := l2) | now apply has_id_true].
Qed.

(** The insert branch, run to its end. *)
Lemma post_insert_run (store : list CartDoc) (cart : Cart) (oid : ObjectId) :
  List.find (same_item cart) store = None ->
  existsb (Mongoose.has_id oid) store = false ->
  run (post cart oid) store =
    ({| db := store ++ [new_CartModel oid cart];
        res := {| Express.statusCode := 201;
                  Express.sent := Some (201, toJSON (new_CartModel oid cart)) |} |},
     Normal tt).
Proof.
  intros Hfind Hfresh.
  unfold run, post, try_catch, bind, Mongoose.findOne. cbn [db].
  rewrite Hfind. unfold Mongoose.save_new. cbn [db res].
  change (_id (new_CartModel oid cart)) with oid. rewrite Hfresh. reflexivity.
Qed.

(** A replaced element moves no other element of the list. *)
Lemma nth_error_replaced {A} (l1 l2 : list A) (a b : A) (i : nat) (x : A) :
  nth_error (l1 ++ a :: l2) i = Some x ->
  (x = a /\ nth_error (l1 ++ b :: l2) i = Some b) \/
  nth_error (l1 ++ b :: l2) i = Some x.
Proof.
  revert i. induction l1 as [|c l1 IH]; intros [|i]; simpl.
  - intros [= <-]. left. auto.
  - intros Hx. right. exact Hx.
  - intros Hx. right. exact Hx.
  - apply IH.
Qed.

(** The primary-key index survives cart-create: a merge keeps every id, and
    an insert with a stored id is rejected. *)
Lemma cart_post_preserves_unique_ids
    (store : list CartDoc) (cart : Cart) (oid : ObjectId) :
  unique_ids store -> unique_ids (stored (run (post cart oid) store)).
Proof.
  unfold unique_ids. intros Huniq.
  unfold run, post, try_catch, bind, Mongoose.findOne, stored. cbn [db].
  destruct (List.find (same_item cart) store) as [d|] eqn:Hfind.
  - unfold Mongoose.save_modified. cbn [db res].
    pose proof (update_first_map _id
                  (Mongoose.has_id (_id (set_quantity (PrimFloat.add (quantity (fields d)) (quantity cart)) d)))
                  (set_quantity (PrimFloat.add (quantity (fields d)) (quantity cart))) store
                  (fun x => eq_refl)) as Hids.
    destruct (Mongoose.update_first _ _ store) as [l [|]]; cbn in Hids |- *.
    + now rewrite Hids.
    + exact Huniq.
  - unfold Mongoose.save_new. cbn [db res].
    destruct (existsb _ store) eqn:Hdup; cbn.
    + exact Huniq.
    + rewrite map_app. apply NoDup_snoc; [exact Huniq|].
      intros Hin. apply in_map_iff in Hin as (x & Hx & Hin).
      assert (Hhit : existsb (Mongoose.has_id (_id (new_CartModel oid cart))) store = true)
        by (apply existsb_exists; exists x; split; [exact Hin | now apply has_id_true]).
      congruence.
Qed.

(** C1: when the (productId, email) pair of a cart-create request matches a
    stored item, the handler adds the incoming quantity to that item's stored
    quantity, with the addition of JavaScript numbers, persists it, and
    answers HTTP 200 with the request payload as body: the payload's own
    six fields, its own quantity among them, and no id. *)
Theorem cart_post_existing_merges
    (store : list CartDoc) (cart : Cart) (oid : ObjectId) (d : CartDoc) :
  unique_ids store ->
  List.find (same_item cart) store = Some d ->
  response (run (post cart oid) store)
    = Some (200, JObject [("productId", JString (productId cart));
                          ("name", JString (name cart));
                          ("email", JString (email cart));
                          ("image", JString (image cart));
                          ("price", number_json (price cart));
                          ("quantity", number_json (quantity cart))]) /\
  uncaught (run (post cart oid) store) = None /\
  exists l1 l2,
    store = l1 ++ d :: l2 /\
    stored (run (post cart oid) store) =
      l1 ++ mkCartDoc (id d)
              (mkCart (productId (fields d)) (name (fields d)) (email (fields d))
                      (image (fields d)) (price (fields d))
                      (PrimFloat.add (quantity (fields d)) (quantity cart))) :: l2.
Proof.
  intros Huniq Hfind.
  destruct (@post_merge_run _ _ oid _ Huniq Hfind) as (l1 & l2 & Hstore & Hrun).
  rewrite Hrun. unfold response, uncaught, stored. cbn.
  repeat split. exists l1, l2. auto.
Qed.

Lemma cart_post_existing_merges_witness :
  (response (run (post sample_stored_pair "65a4") sample_carts)
     = Some (200, toJSON sample_stored_pair) /\
   stored (run (post sample_stored_pair "65a4") sample_carts) =
     [mkCartDoc "65a1" (mkCart "p1" "Macbook Pro" "worapakorn@gmail.com" "macbook.png" 2000 5);
      mkCartDoc "65a2" (mkCart "p2" "Mouse" "worapakorn@gmail.com" "mouse.png" 20 4);
      mkCartDoc "65a3" (mkCart "p1" "Macbook Pro" "other@gmail.com" "macbook.png" 2000 2)]) /\
  stored (run (post sample_one_more "65a8") sample_large_carts) =
    [mkCartDoc "65a7" (mkCart "p7" "Screw" "bulk@gmail.com" "screw.png" 0.5 9007199254740992)].
Proof.
  split.
  - destruct (@cart_post_existing_merges sample_carts sample_stored_pair "65a4"
                (mkCartDoc "65a2" (mkCart "p2" "Mouse" "worapakorn@gmail.com" "mouse.png" 20 1)))
      as (Hres & _ & _); [unfold unique_ids; concrete_nodup | reflexivity |].
    split; [exact Hres | reflexivity].
  - destruct (@cart_post_existing_merges sample_large_carts sample_one_more "65a8"
                (mkCartDoc "65a7"
                   (mkCart "p7" "Screw" "bulk@gmail.com" "screw.png" 0.5 9007199254740992)))
      as (_ & _ & l1 & l2 & _ & _); [unfold unique_ids; concrete_nodup | reflexivity |].
    reflexivity.
Defined.

(** C2: a merging cart-create request leaves every field of the matched
    stored document other than its quantity as it was, and leaves every other
    document of the collection as it was. *)
Theorem cart_post_merge_frame
    (store : list CartDoc) (cart : Cart) (oid : ObjectId) (d : CartDoc) :
  unique_ids store ->
  List.find (same_item cart) store = Some d ->
  length (stored (run (post cart oid) store)) = length store /\
  forall (i : nat) (x : CartDoc),
    nth_error store i = Some x ->
    exists x',
      nth_error (stored (run (post cart oid) store)) i = Some x' /\
      same_but_quantity x x' /\
      (x <> d -> x' = x).
Proof.
  intros Huniq Hfind.
  destruct (@post_merge_run _ _ oid _ Huniq Hfind) as (l1 & l2 & -> & Hrun).
  rewrite Hrun. unfold stored. cbn [fst db]. split.
  - rewrite !length_app. reflexivity.
  - intros i x Hx.
    destruct (nth_error_replaced l1 l2 d
                (set_quantity (PrimFloat.add (quantity (fields d)) (quantity cart)) d) i x Hx)
      as [[-> Hi] | Hi].
    + eexists. split; [exact Hi|]. split; [repeat split|]. intros Hne. now elim Hne.
    + exists x. split; [exact Hi|]. split; [repeat split|]. reflexivity.
Qed.

Lemma cart_post_merge_frame_witness :
  length (stored (run (post sample_stored_pair "65a4") sample_carts)) = 3%nat /\
  nth_error (stored (run (post sample_stored_pair "65a4") sample_carts)) 0
    = nth_error sample_carts 0 /\
  exists x',
    nth_error (stored (run (post sample_stored_pair "65a4") sample_carts)) 1 = Some x' /\
    name (fields x') = "Mouse" /\ price (fields x') = 20%float.
Proof.
  destruct (@cart_post_merge_frame sample_carts sample_stored_pair "65a4"
              (mkCartDoc "65a2" (mkCart "p2" "Mouse" "worapakorn@gmail.com" "mouse.png" 20 1)))
    as (Hlen & Hframe); [unfold unique_ids; concrete_nodup | reflexivity |].
  split; [exact Hlen|]. split.
  - destruct (Hframe 0%nat _ eq_refl) as (x' & Hx' & _ & Hsame).
    rewrite Hx'. rewrite Hsame; [reflexivity | discriminate].
  - destruct (Hframe 1%nat _ eq_refl) as (x' & Hx' & Hfields & _).
    exists x'. split; [exact Hx'|].
    destruct Hfields as (_ & _ & Hname & _ & _ & Hprice). split; assumption.
Defined.

(** C3: when the (productId, email) pair of a cart-create request matches no
    stored item, the handler inserts exactly one new document, made of the
    payload and the generated id, and answers HTTP 201 with that document,
    its id included. *)
Theorem cart_post_new_inserts
    (store : list CartDoc) (cart : Cart) (oid : ObjectId) :
  List.find (same_item cart) store = None ->
  ~ In oid (map _id store) ->
  stored (run (post cart oid) store) = store ++ [new_CartModel oid cart] /\
  id (new_CartModel oid cart) = oid /\
  fields (new_CartModel oid cart) = cart /\
  response (run (post cart oid) store)
    = Some (201, JObject (("_id", JString oid) :: cart_fields cart)) /\
  uncaught (run (post cart oid) store) = None.
Proof.
  intros Hfind Hfresh. apply fresh_id in Hfresh.
  rewrite (post_insert_run store cart oid Hfind Hfresh).
  unfold stored, response, uncaught. cbn. auto.
Qed.

Lemma cart_post_new_inserts_witness :
  stored (run (post sample_new_pair "65a4") sample_carts)
    = sample_carts ++ [mkCartDoc "65a4" sample_new_pair] /\
  response (run (post sample_new_pair "65a4") sample_carts)
    = Some (201, JObject (("_id", JString "65a4") :: cart_fields sample_new_pair)).
Proof.
  destruct (cart_post_new_inserts sample_carts sample_new_pair "65a4")
    as (Hstored & _ & _ & Hres & _);
    [reflexivity | simpl; intuition discriminate |].
  split; [exact Hstored | exact Hres].
Defined.

(** C4: at most one cart item per (productId, email) pair is an invariant of
    cart-create: from a collection that satisfies it, every cart-create
    request leads to a collection that satisfies it. *)
Theorem cart_post_preserves_one_per_pair
    (store : list CartDoc) (cart : Cart) (oid : ObjectId) :
  one_per_pair store ->
  one_per_pair (stored (run (post cart oid) store)).
Proof.
  unfold one_per_pair. intros Hinv.
  unfold run, post, try_catch, bind, Mongoose.findOne, stored. cbn [db].
  destruct (List.find (same_item cart) store) as [d|] eqn:Hfind.
  - unfold Mongoose.save_modified. cbn [db res].
    pose proof (update_first_map key
                  (Mongoose.has_id (_id (set_quantity (PrimFloat.add (quantity (fields d)) (quantity cart)) d)))
                  (set_quantity (PrimFloat.add (quantity (fields d)) (quantity cart))) store
                  (set_quantity_key _)) as Hkeys.
    destruct (Mongoose.update_first _ _ store) as [l [|]]; cbn in Hkeys |- *.
    + now rewrite Hkeys.
    + exact Hinv.
  - unfold Mongoose.save_new. cbn [db res].
    destruct (existsb _ store); cbn.
    + exact Hinv.
    + rewrite map_app. apply NoDup_snoc; [exact Hinv|].
      now apply no_match_new_key.
Qed.

Lemma cart_post_preserves_one_per_pair_witness :
  one_per_pair (stored (run (post sample_stored_pair "65a4") sample_carts)) /\
  one_per_pair (stored (run (post sample_new_pair "65a4") sample_carts)).
Proof.
  split; apply cart_post_preserves_one_per_pair;
    unfold one_per_pair; concrete_nodup.
Defined.

(** clear-by-owner, run to its end: the deletion happens first, the count
    of the result picks the response. *)
Lemma delete_clear_run (store : list CartDoc) (e : string) :
  run (delete_clear e) store =
    ({| db := filter (fun d => negb (by_email e d)) store;
        res := if 0 <? Z.of_nat (length (filter (by_email e) store))
               then {| Express.statusCode := 200;
                       Express.sent :=
                         Some (200, toJSON (Mongoose.mkDeleteResult true
                                 (Z.of_nat (length (filter (by_email e) store))))) |}
               else {| Express.statusCode := 404;
                       Express.sent := Some (404, message_body "Empty cart") |} |},
     Normal tt).
Proof.
  unfold run, delete_clear, try_catch, bind, Mongoose.deleteMany.
  cbn [db res Mongoose.deletedCount].
  now destruct (0 <? Z.of_nat (length (filter (by_email e) store))).
Qed.

(** C5: clear-by-owner removes the cart items whose email is the given one
    and no other; it answers HTTP 200 with the deletion result when at least
    one item was removed, and HTTP 404 "Empty cart", with the collection as
    it was, when none matched. *)
Theorem cart_clear_by_owner (store : list CartDoc) (e : string) :
  stored (run (delete_clear e) store)
    = filter (fun d => negb (by_email e d)) store /\
  (forall d, In d (stored (run (delete_clear e) store)) <->
             In d store /\ email (fields d) <> e) /\
  ((exists d, In d store /\ email (fields d) = e) ->
   0 < Z.of_nat (length (filter (by_email e) store)) /\
   response (run (delete_clear e) store)
     = Some (200, toJSON (Mongoose.mkDeleteResult true
                            (Z.of_nat (length (filter (by_email e) store)))))) /\
  ((forall d, In d store -> email (fields d) <> e) ->
   response (run (delete_clear e) store) = Some (404, message_body "Empty cart") /\
   stored (run (delete_clear e) store) = store).
Proof.
  rewrite delete_clear_run. unfold stored, response. cbn [fst db res].
  split; [reflexivity|]. split; [|split].
  - intros d. rewrite filter_In. unfold by_email.
    rewrite negb_true_iff, String.eqb_neq. reflexivity.
  - intros (d & Hd & He).
    assert (Hex : existsb (by_email e) store = true).
    { apply existsb_exists. exists d. split; [exact Hd|]. now apply String.eqb_eq. }
    pose proof (filter_some _ _ Hex) as Hpos. split; [exact Hpos|].
    apply Z.ltb_lt in Hpos. rewrite Hpos. reflexivity.
  - intros Hnone.
    assert (Hex : existsb (by_email e) store = false).
    { destruct (existsb (by_email e) store) eqn:Hex; [|reflexivity].
      apply existsb_exists in Hex as (d & Hd & He).
      apply String.eqb_eq in He. now elim (Hnone d Hd). }
    destruct (filter_none _ _ Hex) as [Hmatch Hrest].
    rewrite Hmatch, Hrest. cbn. auto.
Qed.

Lemma cart_clear_by_owner_witness :
  response (run (delete_clear "worapakorn@gmail.com") sample_carts)
    = Some (200, toJSON (Mongoose.mkDeleteResult true 2)) /\
  response (run (delete_clear "nobody@gmail.com") sample_carts)
    = Some (404, message_body "Empty cart").
Proof.
  split.
  - destruct (cart_clear_by_owner sample_carts "worapakorn@gmail.com")
      as (_ & _ & Hsome & _).
    destruct Hsome as (_ & Hres); [|exact Hres].
    eexists. split; [left; reflexivity | reflexivity].
  - destruct (cart_clear_by_owner sample_carts "nobody@gmail.com")
      as (_ & _ & _ & Hnone).
    destruct Hnone as (Hres & _); [|exact Hres].
    simpl. intros d Hd. intuition (subst; discriminate).
Defined.

(** C10: list-by-email answers HTTP 200 with the array, possibly empty, of
    the cart items whose email matches; the guard of its 404 "Cart item not
    found" branch is false for every result of the query, an array, so the
    branch is never taken. *)
Theorem cart_get_by_email_always_200 (store : list CartDoc) (e : string) :
  response (run (get_by_email e) store)
    = Some (200, JArray (map toJSON (filter (by_email e) store))) /\
  (forall d, In d (filter (by_email e) store) <->
             In d store /\ email (fields d) = e) /\
  negb (truthy (filter (by_email e) store)) = false /\
  response (run (get_by_email e) store)
    <> Some (404, message_body "Cart item not found") /\
  stored (run (get_by_email e) store) = store /\
  uncaught (run (get_by_email e) store) = None.
Proof.
  assert (Hres : response (run (get_by_email e) store)
                 = Some (200, JArray (map toJSON (filter (by_email e) store))))
    by reflexivity.
  split; [exact Hres|]. split; [|split; [reflexivity|split]].
  - intros d. rewrite filter_In. unfold by_email. now rewrite String.eqb_eq.
  - rewrite Hres. discriminate.
  - split; reflexivity.
Qed.

End CartFacts.

(** ** Users *)

Section UserFacts.
Import UserRouter.

Lemma by_email_none (users : list UserDoc) (e : string) :
  (forall u, In u users -> email (fields u) <> e) ->
  List.find (by_email e) users = None.
Proof.
  intros Hnone. destruct (List.find (by_email e) users) as [u|] eqn:Hf;
    [|reflexivity].
  apply find_some in Hf as [Hu He]. apply String.eqb_eq in He.
  now elim (Hnone u Hu).
Qed.

Lemma by_email_some (users : list UserDoc) (e : string) :
  (exists u, In u users /\ email (fields u) = e) ->
  exists u, List.find (by_email e) users = Some u.
Proof.
  intros (u & Hu & He).
  destruct (List.find (by_email e) users) as [v|] eqn:Hf; [now exists v|].
  apply (find_none _ _ Hf) in Hu. unfold by_email in Hu.
  apply String.eqb_neq in Hu. contradiction.
Qed.

(** The document POST /users builds from a body: the body with its falsy
    [photoURL] and [role] replaced by the defaults. *)
Lemma user_post_insert_run (users : list UserDoc) (user : User) (oid : ObjectId) :
  List.find (by_email (email user)) users = None ->
  existsb (Mongoose.has_id oid) users = false ->
  exists doc,
    run (post user oid) users =
      ({| db := users ++ [doc];
          res := {| Express.statusCode := 201;
                    Express.sent := Some (201, toJSON doc) |} |}, Normal tt) /\
    id doc = oid /\
    name (fields doc) = name user /\
    email (fields doc) = email user /\
    photoURL (fields doc)
      = (if truthy (photoURL user) then photoURL user else Some placeholder_photoURL) /\
    role (fields doc) = (if truthy (role user) then role user else Some "user").
Proof.
  intros Hfind Hfresh.
  unfold run, post, try_catch, bind, Mongoose.findOne. cbn [db].
  rewrite Hfind. cbn [truthy Truthy_option].
  unfold Mongoose.save_new. cbn [db res].
  match goal with
  | |- context [new_UserModel oid ?u] =>
      change (_id (new_UserModel oid u)) with oid; rewrite Hfresh;
      exists (new_UserModel oid u)
  end.
  split; [reflexivity|].
  destruct user as [n e [ph|] [r|]];
    cbn;
    try (destruct (truthy ph) eqn:Hph; cbn);
    try (destruct (truthy r) eqn:Hr; cbn); auto.
Qed.

(** Where the email is taken, POST /users answers 302 and stores nothing. *)
Lemma user_post_exists_run (users : list UserDoc) (user : User) (oid : ObjectId) (u : UserDoc) :
  List.find (by_email (email user)) users = Some u ->
  run (post user oid) users =
    ({| db := users;
        res := {| Express.statusCode := 302;
                  Express.sent := Some (302, message_body "User already exists") |} |},
     Normal tt).
Proof.
  intros Hfind. unfold run, post, try_catch, bind, Mongoose.findOne. cbn [db].
  rewrite Hfind. reflexivity.
Qed.

(** C6: user-create answers HTTP 302 "User already exists" and leaves the
    collection as it was when a user with the same email is stored;
    otherwise it gives an absent photoURL the placeholder and an absent role
    the value "user", inserts the user, and answers HTTP 201 with the new
    document. *)
Theorem user_post_create (users : list UserDoc) (user : User) (oid : ObjectId) :
  ((exists u, In u users /\ email (fields u) = email user) ->
   response (run (post user oid) users)
     = Some (302, message_body "User already exists") /\
   stored (run (post user oid) users) = users) /\
  ((forall u, In u users -> email (fields u) <> email user) ->
   ~ In oid (map _id users) ->
   exists doc,
     stored (run (post user oid) users) = users ++ [doc] /\
     response (run (post user oid) users) = Some (201, toJSON doc) /\
     id doc = oid /\
     name (fields doc) = name user /\
     email (fields doc) = email user /\
     (photoURL user = None -> photoURL (fields doc) = Some placeholder_photoURL) /\
     (role user = None -> role (fields doc) = Some "user") /\
     (forall s, s <> "" -> photoURL user = Some s -> photoURL (fields doc) = Some s) /\
     (forall s, s <> "" -> role user = Some s -> role (fields doc) = Some s)).
Proof.
  split.
  - intros Hex. destruct (by_email_some _ _ Hex) as (u & Hfind).
    rewrite (user_post_exists_run _ _ oid _ Hfind). split; reflexivity.
  - intros Hnone Hfresh. apply by_email_none in Hnone. apply fresh_id in Hfresh.
    destruct (user_post_insert_run _ _ _ Hnone Hfresh)
      as (doc & Hrun & Hid & Hname & Hemail & Hphoto & Hrole).
    exists doc. rewrite Hrun. unfold stored, response. cbn [fst db res Express.sent].
    repeat split; try assumption.
    + intros Hp. rewrite Hphoto, Hp. reflexivity.
    + intros Hr. rewrite Hrole, Hr. reflexivity.
    + intros s Hs Hp. rewrite Hphoto, Hp. cbn.
      apply String.eqb_neq in Hs. unfold truthy, Truthy_string. now rewrite Hs.
    + intros s Hs Hr. rewrite Hrole, Hr. cbn.
      apply String.eqb_neq in Hs. unfold truthy, Truthy_string. now rewrite Hs.
Qed.

Lemma user_post_create_witness :
  (response (run (post (mkUser "Again" "guest@gmail.com" None None) "65b3") sample_users)
     = Some (302, message_body "User already exists") /\
   stored (run (post (mkUser "Again" "guest@gmail.com" None None) "65b3") sample_users)
     = sample_users) /\
  stored (run (post sample_new_user "65b3") sample_users)
    = sample_users ++
      [mkUserDoc "65b3" (mkUser "New" "new@gmail.com"
                                (Some placeholder_photoURL) (Some "user"))].
Proof.
  split.
  - destruct (user_post_create sample_users
                (mkUser "Again" "guest@gmail.com" None None) "65b3") as (Hdup & _).
    apply Hdup. eexists. split; [right; left; reflexivity | reflexivity].
  - destruct (user_post_create sample_users sample_new_user "65b3") as (_ & Hnew).
    destruct Hnew as (doc & Hstored & _).
    + simpl. intros u Hu. intuition (subst; discriminate).
    + simpl. intuition discriminate.
    + reflexivity.
Defined.

(** C7: is-admin looks the user up by email and answers HTTP 200 with
    [{ isAdmin: b }], b being true exactly when the role of the user found is
    "admin"; when no user has that email, reading the role of the null result
    throws and the handler answers HTTP 500. *)
Theorem user_get_admin (users : list UserDoc) (e : string) :
  (forall u, List.find (by_email e) users = Some u ->
   response (run (get_admin e) users)
     = Some (200, JObject [("isAdmin", JBool (is_admin_role (role (fields u))))]) /\
   (is_admin_role (role (fields u)) = true <-> role (fields u) = Some "admin")) /\
  ((forall u, In u users -> email (fields u) <> e) ->
   response (run (get_admin e) users) = Some (500, message_body TypeError_role)).
Proof.
  split.
  - intros u Hfind. split.
    + unfold run, get_admin, try_catch, bind, Mongoose.findOne. cbn [db].
      rewrite Hfind. cbn. now destruct (is_admin_role (role (fields u))).
    + destruct (role (fields u)) as [r|]; cbn; [|split; discriminate].
      rewrite String.eqb_eq. split; [now intros ->|now intros [= ->]].
  - intros Hnone. apply by_email_none in Hnone.
    unfold run, get_admin, try_catch, bind, Mongoose.findOne. cbn [db].
    rewrite Hnone. reflexivity.
Qed.

Lemma user_get_admin_witness :
  response (run (get_admin "worapakorn@gmail.com") sample_users)
    = Some (200, JObject [("isAdmin", JBool true)]) /\
  response (run (get_admin "guest@gmail.com") sample_users)
    = Some (200, JObject [("isAdmin", JBool false)]) /\
  response (run (get_admin "nobody@gmail.com") sample_users)
    = Some (500, message_body TypeError_role).
Proof.
  split; [|split].
  - destruct (user_get_admin sample_users "worapakorn@gmail.com") as (Hfound & _).
    destruct (Hfound _ eq_refl) as (Hres & _). exact Hres.
  - destruct (user_get_admin sample_users "guest@gmail.com") as (Hfound & _).
    destruct (Hfound _ eq_refl) as (Hres & _). exact Hres.
  - destruct (user_get_admin sample_users "nobody@gmail.com") as (_ & Hnone).
    apply Hnone. simpl. intros u Hu. intuition (subst; discriminate).
Defined.

(** What get-user-by-id does for an id that is not stored: the 404 is
    written, the handler goes on to a second [res.json], which throws on the
    sent response, and so does the one in the [catch] block. *)
Lemma user_get_by_id_missing_run (users : list UserDoc) (i : ObjectId) :
  List.find (Mongoose.has_id i) users = None ->
  run (get_by_id i) users =
    ({| db := users;
        res := {| Express.statusCode := 500;
                  Express.sent := Some (404, message_body "User is not found") |} |},
     Throw Express.ERR_HTTP_HEADERS_SENT).
Proof.
  intros Hfind.
  unfold run, get_by_id, try_catch, bind, Mongoose.findById, Mongoose.findOne.
  cbn [db]. rewrite Hfind. reflexivity.
Qed.

(** For a stored id the user is sent with the default status. *)
Lemma user_get_by_id_found (users : list UserDoc) (i : ObjectId) (u : UserDoc) :
  List.find (Mongoose.has_id i) users = Some u ->
  response (run (get_by_id i) users) = Some (200, toJSON u).
Proof.
  intros Hfind.
  unfold run, get_by_id, try_catch, bind, Mongoose.findById, Mongoose.findOne.
  cbn [db]. rewrite Hfind. reflexivity.
Qed.

(** C8, as stated, fails: for an id that no stored user has, the response of
    get-user-by-id is not 200 with a null body. *)
Lemma user_get_by_id_missing_not_200_null :
  ~ In "65b9" (map _id sample_users) /\
  response (run (get_by_id "65b9") sample_users) <> Some (200, JNull).
Proof.
  split; [simpl; intuition discriminate | discriminate].
Qed.

(** C8, amended: for every id that no stored user has, the response of
    get-user-by-id is HTTP 404 with the message "User is not found", and the
    collection is as it was. *)
Theorem user_get_by_id_missing_404 (users : list UserDoc) (i : ObjectId) :
  ~ In i (map _id users) ->
  response (run (get_by_id i) users)
    = Some (404, message_body "User is not found") /\
  stored (run (get_by_id i) users) = users.
Proof.
  intros Habsent. apply absent_id in Habsent.
  rewrite (user_get_by_id_missing_run _ _ Habsent). split; reflexivity.
Qed.

Lemma user_get_by_id_missing_404_witness :
  response (run (get_by_id "65b9") sample_users)
    = Some (404, message_body "User is not found") /\
  stored (run (get_by_id "65b9") sample_users) = sample_users.
Proof.
  apply user_get_by_id_missing_404. simpl. intuition discriminate.
Defined.

End UserFacts.

(** ** Products *)

Section ProductFacts.
Import ProductRouter.

(** C9: product delete-by-id removes the document with the given id, and
    only it, and answers HTTP 200 with the deleted document when it is
    stored; it answers HTTP 404 and leaves the collection as it was when it
    is not. *)
Theorem product_delete_by_id (products : list ProductDoc) (i : ObjectId) :
  (forall p, unique_ids products -> In p products -> id p = i ->
   response (run (delete_by_id i) products) = Some (200, toJSON p) /\
   ~ In i (map _id (stored (run (delete_by_id i) products))) /\
   exists l1 l2,
     products = l1 ++ p :: l2 /\
     stored (run (delete_by_id i) products) = l1 ++ l2) /\
  (~ In i (map _id products) ->
   response (run (delete_by_id i) products)
     = Some (404, message_body "Product not found") /\
   stored (run (delete_by_id i) products) = products).
Proof.
  split.
  - intros p Huniq Hin <-.
    destruct (find_by_own_id _ _ Huniq Hin) as (l1 & l2 & -> & Hbefore & Hgone).
    assert (Hp : Mongoose.has_id (_id p) p = true) by now apply has_id_true.
    unfold run, delete_by_id, try_catch, bind, Mongoose.findByIdAndDelete,
      response, stored.
    cbn [db res].
    change (id p) with (_id p).
    rewrite (find_at _ _ l2 _ Hbefore Hp), (remove_first_at _ _ l2 _ Hbefore Hp).
    cbn. split; [reflexivity|]. split; [exact Hgone|].
    exists l1, l2. auto.
  - intros Habsent. apply absent_id in Habsent.
    unfold run, delete_by_id, try_catch, bind, Mongoose.findByIdAndDelete,
      response, stored.
    cbn [db res]. rewrite Habsent, (remove_first_none _ _ Habsent). cbn. auto.
Qed.

Lemma product_delete_by_id_witness :
  (response (run (delete_by_id "65c1") sample_products)
     = Some (200, toJSON (mkProductDoc "65c1"
                            (mkProduct "Macbook Pro" 2000 "A great laptop"
                                       "macbook.png" "Electronics"))) /\
   stored (run (delete_by_id "65c1") sample_products)
     = [mkProductDoc "65c2" (mkProduct "Mouse" 20 "A mouse" "mouse.png" "Electronics")]) /\
  response (run (delete_by_id "65c9") sample_products)
    = Some (404, message_body "Product not found") /\
  stored (run (delete_by_id "65c9") sample_products) = sample_products.
Proof.
  split.
  - destruct (product_delete_by_id sample_products "65c1") as (Hfound & _).
    destruct (Hfound (mkProductDoc "65c1"
                        (mkProduct "Macbook Pro" 2000 "A great laptop"
                                   "macbook.png" "Electronics")))
      as (Hres & _ & _);
      [unfold unique_ids; concrete_nodup | left; reflexivity | reflexivity |].
    split; [exact Hres | reflexivity].
  - destruct (product_delete_by_id sample_products "65c9") as (_ & Hmissing).
    apply Hmissing. simpl. intuition discriminate.
Defined.

End ProductFacts.

(** ** Lookup, update and removal by id *)

Section ByIdFacts.
Context {D : Type} `{Document D}.

Lemma find_none_before (p : D -> bool) (l : list D) :
  List.find p l = None -> forallb (fun x => negb (p x)) l = true.
Proof.
  induction l as [|a l IH]; simpl; [reflexivity|].
  destruct (p a); [discriminate|]. exact IH.
Qed.

Lemma update_first_none (p : D -> bool) (upd : D -> D) (l : list D) :
  List.find p l = None -> Mongoose.update_first p upd l = (l, false).
Proof.
  induction l as [|a l IH]; simpl; [reflexivity|].
  destruct (p a); [discriminate|]. intros Hf. now rewrite (IH Hf).
Qed.

(** A stored document is always hit by an update that selects its id. *)
Lemma update_first_hits (upd : D -> D) (l : list D) (d : D) :
  In d l -> snd (Mongoose.update_first (Mongoose.has_id (_id d)) upd l) = true.
Proof.
  induction l as [|a l IH]; simpl; [tauto|].
  intros [-> | Hin].
  - assert (Hd : Mongoose.has_id (_id d) d = true) by now apply has_id_true.
    now rewrite Hd.
  - destruct (Mongoose.has_id (_id d) a); [reflexivity|].
    specialize (IH Hin). now destruct (Mongoose.update_first _ upd l).
Qed.

(** What the by-id operations do to a stored document under the primary-key
    index. *)
Lemma located (l : list D) (d : D) :
  unique_ids l -> In d l ->
  exists l1 l2,
    l = l1 ++ d :: l2 /\
    List.find (Mongoose.has_id (_id d)) l = Some d /\
    Mongoose.remove_first (Mongoose.has_id (_id d)) l = l1 ++ l2 /\
    (forall upd, Mongoose.update_first (Mongoose.has_id (_id d)) upd l
                 = (l1 ++ upd d :: l2, true)) /\
    ~ In (_id d) (map _id (l1 ++ l2)).
Proof.
  intros Huniq Hin.
  destruct (find_by_own_id _ _ Huniq Hin) as (l1 & l2 & -> & Hbefore & Hgone).
  assert (Hd : Mongoose.has_id (_id d) d = true) by now apply has_id_true.
  exists l1, l2. split; [reflexivity|].
  split; [now apply find_at|]. split; [now apply remove_first_at|].
  split; [intros upd; now apply update_first_at | exact Hgone].
Qed.

Lemma fresh_before (i : ObjectId) (l : list D) :
  ~ In i (map _id l) ->
  forallb (fun x => negb (Mongoose.has_id i x)) l = true.
Proof. intros Hfresh. apply find_none_before. now apply absent_id. Qed.

(** Two stored documents on which [f] agrees are one, where [f] has no
    duplicate over the collection. *)
Lemma NoDup_map_agree {K} (f : D -> K) (l : list D) (a b : D) :
  NoDup (map f l) -> In a l -> In b l -> f a = f b -> a = b.
Proof.
  induction l as [|c l IH]; simpl; [tauto|].
  intros Hn Ha Hb Hf. inversion Hn as [|? ? Hc Hl]; subst.
  destruct Ha as [-> | Ha], Hb as [-> | Hb]; auto.
  - elim Hc. rewrite Hf. now apply in_map.
  - elim Hc. rewrite <- Hf. now apply in_map.
Qed.

Lemma NoDup_map_filter {K} (f : D -> K) (p : D -> bool) (l : list D) :
  NoDup (map f l) -> NoDup (map f (filter p l)).
Proof.
  induction l as [|c l IH]; simpl; [auto|].
  intros Hn. inversion Hn as [|? ? Hc Hl]; subst.
  destruct (p c); simpl; [|now apply IH].
  constructor; [|now apply IH].
  intros Hin. apply Hc. apply in_map_iff in Hin as (x & Hx & Hin).
  apply filter_In in Hin as [Hin _]. rewrite <- Hx. now apply in_map.
Qed.

Lemma remove_first_incl (p : D -> bool) (l : list D) (x : D) :
  In x (Mongoose.remove_first p l) -> In x l.
Proof.
  induction l as [|c l IH]; simpl; [tauto|].
  destruct (p c); simpl; [tauto|]. intros [-> | Hin]; auto.
Qed.

Lemma NoDup_map_remove_first {K} (f : D -> K) (p : D -> bool) (l : list D) :
  NoDup (map f l) -> NoDup (map f (Mongoose.remove_first p l)).
Proof.
  induction l as [|c l IH]; simpl; [auto|].
  intros Hn. inversion Hn as [|? ? Hc Hl]; subst.
  destruct (p c); simpl; [exact Hl|].
  constructor; [|now apply IH].
  intros Hin. apply Hc. apply in_map_iff in Hin as (x & Hx & Hin).
  apply remove_first_incl in Hin. rewrite <- Hx. now apply in_map.
Qed.

Lemma none_before_ext (p q : D -> bool) (l : list D) :
  (forall x, p x = q x) ->
  forallb (fun x => negb (q x)) l = true ->
  forallb (fun x => negb (p x)) l = true.
Proof.
  intros Hpq. induction l as [|c l IH]; simpl; [reflexivity|].
  rewrite Hpq. intros Hl. apply andb_true_iff in Hl as [-> Hl]. now apply IH.
Qed.

Lemma filter_filter_negb (p : D -> bool) (l : list D) :
  filter p (filter (fun d => negb (p d)) l) = [].
Proof.
  induction l as [|c l IH]; simpl; [reflexivity|].
  destruct (p c) eqn:Hc; simpl; [exact IH|]. now rewrite Hc.
Qed.

End ByIdFacts.

Lemma stored_pair {D A} (w : World D) (c : completion A) : stored (w, c) = db w.
Proof. reflexivity. Qed.

(** ** Cart items: the other routes and how the routes compose *)

Section CartRoutes.
Import CartRouter.

Lemma cart_put_found_run (store : list CartDoc) (d : CartDoc) (body : Cart) :
  unique_ids store -> In d store ->
  exists l1 l2,
    store = l1 ++ d :: l2 /\
    run (put (id d) body) store =
      ({| db := l1 ++ assign body d :: l2;
          res := {| Express.statusCode := 200;
                    Express.sent := Some (200, toJSON (assign body d)) |} |},
       Normal tt).
Proof.
  intros Huniq Hin.
  destruct (located _ _ Huniq Hin) as (l1 & l2 & Hl & Hfind & _ & Hupd & _).
  exists l1, l2. split; [exact Hl|].
  unfold run, put, try_catch, bind, Mongoose.findByIdAndUpdate. cbn [db res].
  change (id d) with (_id d). rewrite Hfind, Hupd. reflexivity.
Qed.

Lemma cart_put_missing_run (store : list CartDoc) (i : ObjectId) (body : Cart) :
  ~ In i (map _id store) ->
  run (put i body) store =
    ({| db := store;
        res := {| Express.statusCode := 404;
                  Express.sent := Some (404, message_body "Cart not found") |} |},
     Normal tt).
Proof.
  intros Habsent. apply absent_id in Habsent.
  unfold run, put, try_catch, bind, Mongoose.findByIdAndUpdate. cbn [db res].
  rewrite Habsent, (update_first_none _ _ _ Habsent). reflexivity.
Qed.

Lemma cart_delete_found_run (store : list CartDoc) (d : CartDoc) :
  unique_ids store -> In d store ->
  exists l1 l2,
    store = l1 ++ d :: l2 /\
    ~ In (id d) (map _id (l1 ++ l2)) /\
    run (delete_by_id (id d)) store =
      ({| db := l1 ++ l2;
          res := {| Express.statusCode := 200;
                    Express.sent := Some (200, toJSON d) |} |},
       Normal tt).
Proof.
  intros Huniq Hin.
  destruct (located _ _ Huniq Hin) as (l1 & l2 & Hl & Hfind & Hrem & _ & Hgone).
  exists l1, l2. split; [exact Hl|]. split; [exact Hgone|].
  unfold run, delete_by_id, try_catch, bind, Mongoose.findByIdAndDelete.
  cbn [db res]. change (id d) with (_id d). rewrite Hfind, Hrem. reflexivity.
Qed.

Lemma cart_delete_missing_run (store : list CartDoc) (i : ObjectId) :
  ~ In i (map _id store) ->
  run (delete_by_id i) store =
    ({| db := store;
        res := {| Express.statusCode := 404;
                  Express.sent := Some (404, message_body "Cart not found") |} |},
     Normal tt).
Proof.
  intros Habsent. apply absent_id in Habsent.
  unfold run, delete_by_id, try_catch, bind, Mongoose.findByIdAndDelete.
  cbn [db res]. rewrite Habsent, (remove_first_none _ _ Habsent). reflexivity.
Qed.

(** The merge branch at a known position. *)
Lemma post_merge_run_at
    (l1 l2 : list CartDoc) (cart : Cart) (oid : ObjectId) (d : CartDoc) :
  forallb (fun x => negb (same_item cart x)) l1 = true ->
  same_item cart d = true ->
  forallb (fun x => negb (Mongoose.has_id (id d) x)) l1 = true ->
  run (post cart oid) (l1 ++ d :: l2) =
    ({| db := l1 ++ set_quantity (PrimFloat.add (quantity (fields d)) (quantity cart)) d :: l2;
        res := {| Express.statusCode := 200;
                  Express.sent := Some (200, toJSON cart) |} |},
     Normal tt).
Proof.
  intros Hbefore Hd Hids.
  unfold run, post, try_catch, bind, Mongoose.findOne. cbn [db].
  rewrite (find_at _ _ l2 _ Hbefore Hd). unfold Mongoose.save_modified. cbn [db res].
  change (_id (set_quantity (PrimFloat.add (quantity (fields d)) (quantity cart)) d)) with (id d).
  rewrite update_first_at; [reflexivity | exact Hids | now apply has_id_true].
Qed.

(** X1: PUT /carts/:id replaces the fields of the stored item with that id
    by the body, keeps its id and its place, touches no other item and
    answers 200 with the item as updated; for an id that is not stored it
    answers 404 "Cart not found" and changes nothing. *)
Theorem cart_put_contract (store : list CartDoc) (i : ObjectId) (body : Cart) :
  (forall d, unique_ids store -> In d store -> id d = i ->
   response (run (put i body) store) = Some (200, toJSON (mkCartDoc i body)) /\
   exists l1 l2,
     store = l1 ++ d :: l2 /\
     stored (run (put i body) store) = l1 ++ mkCartDoc i body :: l2) /\
  (~ In i (map _id store) ->
   response (run (put i body) store) = Some (404, message_body "Cart not found") /\
   stored (run (put i body) store) = store).
Proof.
  split.
  - intros d Huniq Hin <-.
    destruct (cart_put_found_run store d body Huniq Hin) as (l1 & l2 & Hl & Hrun).
    rewrite Hrun. split; [reflexivity|]. exists l1, l2. auto.
  - intros Habsent. rewrite (cart_put_missing_run store i body Habsent).
    split; reflexivity.
Qed.

Lemma cart_put_contract_witness :
  stored (run (put "65a2" sample_new_pair) sample_carts)
    = [mkCartDoc "65a1" (mkCart "p1" "Macbook Pro" "worapakorn@gmail.com" "macbook.png" 2000 5);
       mkCartDoc "65a2" sample_new_pair;
       mkCartDoc "65a3" (mkCart "p1" "Macbook Pro" "other@gmail.com" "macbook.png" 2000 2)] /\
  response (run (put "65a9" sample_new_pair) sample_carts)
    = Some (404, message_body "Cart not found").
Proof.
  split.
  - destruct (cart_put_contract sample_carts "65a2" sample_new_pair) as (Hfound & _).
    destruct (Hfound (mkCartDoc "65a2"
                (mkCart "p2" "Mouse" "worapakorn@gmail.com" "mouse.png" 20 1)))
      as (_ & l1 & l2 & _ & _);
      [unfold unique_ids; concrete_nodup | right; left; reflexivity | reflexivity |].
    reflexivity.
  - destruct (cart_put_contract sample_carts "65a9" sample_new_pair) as (_ & Hmissing).
    apply Hmissing. simpl. intuition discriminate.
Defined.

(** X2: PUT /carts/:id does not keep the one-item-per-pair invariant: giving
    one stored item the (productId, email) pair of another stored item
    leaves two items with that pair. *)
Theorem cart_put_can_duplicate_pair
    (store : list CartDoc) (d1 d2 : CartDoc) (body : Cart) :
  unique_ids store -> In d1 store -> In d2 store -> id d1 <> id d2 ->
  productId body = productId (fields d2) -> email body = email (fields d2) ->
  ~ one_per_pair (stored (run (put (id d1) body) store)).
Proof.
  intros Huniq H1 H2 Hids Hp He Hinv.
  destruct (cart_put_found_run store d1 body Huniq H1) as (l1 & l2 & Hl & Hrun).
  rewrite Hrun in Hinv. unfold stored in Hinv. cbn [fst db] in Hinv.
  assert (Hnew : In (assign body d1) (l1 ++ assign body d1 :: l2))
    by (apply in_or_app; right; now left).
  assert (Hold : In d2 (l1 ++ assign body d1 :: l2)).
  { rewrite Hl in H2. apply in_app_or in H2 as [H2 | [H2 | H2]].
    - apply in_or_app. now left.
    - subst d2. now elim Hids.
    - apply in_or_app. right. now right. }
  assert (Hkey : key (assign body d1) = key d2)
    by (unfold key; cbn; now rewrite Hp, He).
  pose proof (NoDup_map_agree key _ _ _ Hinv Hnew Hold Hkey) as Heq.
  apply Hids. now rewrite <- Heq.
Qed.

Lemma cart_put_can_duplicate_pair_witness :
  one_per_pair sample_carts /\
  ~ one_per_pair
      (stored (run (put "65a1" (mkCart "p2" "Mouse" "worapakorn@gmail.com" "mouse.png" 20 7))
                   sample_carts)).
Proof.
  split; [unfold one_per_pair; concrete_nodup|].
  apply (cart_put_can_duplicate_pair sample_carts
           (mkCartDoc "65a1" (mkCart "p1" "Macbook Pro" "worapakorn@gmail.com" "macbook.png" 2000 5))
           (mkCartDoc "65a2" (mkCart "p2" "Mouse" "worapakorn@gmail.com" "mouse.png" 20 1)));
    [unfold unique_ids; concrete_nodup | left; reflexivity | right; left; reflexivity
    | discriminate | reflexivity | reflexivity].
Defined.

(** X3: DELETE /carts/:id removes the stored item with that id, and only it,
    so that no item with that id is left, and answers 200 with the removed
    item; for an id that is not stored it answers 404 "Cart not found" and
    changes nothing. *)
Theorem cart_delete_by_id_contract (store : list CartDoc) (i : ObjectId) :
  (forall d, unique_ids store -> In d store -> id d = i ->
   response (run (delete_by_id i) store) = Some (200, toJSON d) /\
   ~ In i (map _id (stored (run (delete_by_id i) store))) /\
   exists l1 l2,
     store = l1 ++ d :: l2 /\
     stored (run (delete_by_id i) store) = l1 ++ l2) /\
  (~ In i (map _id store) ->
   response (run (delete_by_id i) store) = Some (404, message_body "Cart not found") /\
   stored (run (delete_by_id i) store) = store).
Proof.
  split.
  - intros d Huniq Hin <-.
    destruct (cart_delete_found_run store d Huniq Hin) as (l1 & l2 & Hl & Hgone & Hrun).
    rewrite Hrun. split; [reflexivity|]. split; [exact Hgone|]. exists l1, l2. auto.
  - intros Habsent. rewrite (cart_delete_missing_run store i Habsent).
    split; reflexivity.
Qed.

Lemma cart_delete_by_id_contract_witness :
  stored (run (delete_by_id "65a2") sample_carts)
    = [mkCartDoc "65a1" (mkCart "p1" "Macbook Pro" "worapakorn@gmail.com" "macbook.png" 2000 5);
       mkCartDoc "65a3" (mkCart "p1" "Macbook Pro" "other@gmail.com" "macbook.png" 2000 2)] /\
  stored (run (delete_by_id "65a9") sample_carts) = sample_carts.
Proof.
  split.
  - destruct (cart_delete_by_id_contract sample_carts "65a2") as (Hfound & _).
    destruct (Hfound (mkCartDoc "65a2"
                (mkCart "p2" "Mouse" "worapakorn@gmail.com" "mouse.png" 20 1)))
      as (_ & _ & l1 & l2 & _ & _);
      [unfold unique_ids; concrete_nodup | right; left; reflexivity | reflexivity |].
    reflexivity.
  - destruct (cart_delete_by_id_contract sample_carts "65a9") as (_ & Hmissing).
    apply Hmissing. simpl. intuition discriminate.
Defined.

(** X4: creating a cart item for a new pair and then deleting it by the id
    it was given brings the collection back to what it was; the delete
    answers 200 with the item created. *)
Theorem cart_post_then_delete_restores
    (store : list CartDoc) (cart : Cart) (oid : ObjectId) :
  List.find (same_item cart) store = None ->
  ~ In oid (map _id store) ->
  stored (run (delete_by_id oid) (stored (run (post cart oid) store))) = store /\
  response (run (delete_by_id oid) (stored (run (post cart oid) store)))
    = Some (200, toJSON (new_CartModel oid cart)).
Proof.
  intros Hfind Hfresh.
  rewrite (post_insert_run store cart oid Hfind (fresh_id _ _ Hfresh)).
  rewrite !stored_pair. cbn [db].
  assert (Hd : Mongoose.has_id oid (new_CartModel oid cart) = true)
    by now apply has_id_true.
  unfold run, delete_by_id, try_catch, bind, Mongoose.findByIdAndDelete,
    stored, response.
  cbn [db res].
  rewrite (find_at _ _ [] _ (fresh_before _ _ Hfresh) Hd),
          (remove_first_at _ _ [] _ (fresh_before _ _ Hfresh) Hd), app_nil_r.
  split; reflexivity.
Qed.

Lemma cart_post_then_delete_restores_witness :
  stored (run (delete_by_id "65a4")
              (stored (run (post sample_new_pair "65a4") sample_carts)))
    = sample_carts.
Proof.
  apply (cart_post_then_delete_restores sample_carts sample_new_pair "65a4");
    [reflexivity | simpl; intuition discriminate].
Defined.

(** X5: a second cart-create for the pair of an item that the first one
    created merges into that item: the collection has gained one document,
    made of the first payload with, as quantity, the sum of the two
    quantities as JavaScript adds them, and the second answer is 200 with
    the second payload. *)
Theorem cart_post_twice_adds_quantities
    (store : list CartDoc) (cart cart' : Cart) (oid oid' : ObjectId) :
  List.find (same_item cart) store = None ->
  ~ In oid (map _id store) ->
  productId cart' = productId cart -> email cart' = email cart ->
  stored (run (post cart' oid') (stored (run (post cart oid) store)))
    = store ++ [mkCartDoc oid
                  (mkCart (productId cart) (name cart) (email cart) (image cart)
                          (price cart)
                          (PrimFloat.add (quantity cart) (quantity cart')))] /\
  response (run (post cart' oid') (stored (run (post cart oid) store)))
    = Some (200, toJSON cart').
Proof.
  intros Hfind Hfresh Hp He.
  rewrite (post_insert_run store cart oid Hfind (fresh_id _ _ Hfresh)).
  rewrite !stored_pair. cbn [db].
  assert (Hsame : forall x, same_item cart' x = same_item cart x)
    by (intros x; unfold same_item; now rewrite Hp, He).
  rewrite (post_merge_run_at store [] cart' oid' (new_CartModel oid cart)).
  - split; reflexivity.
  - apply find_none_before in Hfind. now apply none_before_ext with (q := same_item cart).
  - rewrite Hsame. unfold same_item. cbn. now rewrite !String.eqb_refl.
  - now apply fresh_before.
Qed.

Lemma cart_post_twice_adds_quantities_witness :
  stored (run (post (mkCart "p3" "Keyboard" "worapakorn@gmail.com" "keyboard.png" 90 4) "65a5")
              (stored (run (post sample_new_pair "65a4") sample_carts)))
    = sample_carts ++
      [mkCartDoc "65a4" (mkCart "p3" "Keyboard" "worapakorn@gmail.com" "keyboard.png" 90 5)] /\
  stored (run (post (mkCart "p9" "Bolt" "bulk@gmail.com" "bolt.png" 0.25 1) "65a9")
              (stored (run (post (mkCart "p9" "Bolt" "bulk@gmail.com" "bolt.png" 0.25
                                         9007199254740992) "65a8")
                           sample_large_carts)))
    = sample_large_carts ++
      [mkCartDoc "65a8" (mkCart "p9" "Bolt" "bulk@gmail.com" "bolt.png" 0.25
                                9007199254740992)].
Proof.
  split.
  - apply (cart_post_twice_adds_quantities sample_carts sample_new_pair
             (mkCart "p3" "Keyboard" "worapakorn@gmail.com" "keyboard.png" 90 4) "65a4" "65a5");
      [reflexivity | simpl; intuition discriminate | reflexivity | reflexivity].
  - destruct (cart_post_twice_adds_quantities sample_large_carts
                (mkCart "p9" "Bolt" "bulk@gmail.com" "bolt.png" 0.25 9007199254740992)
                (mkCart "p9" "Bolt" "bulk@gmail.com" "bolt.png" 0.25 1) "65a8" "65a9")
      as (Hstored & _);
      [reflexivity | simpl; intuition discriminate | reflexivity | reflexivity |].
    rewrite Hstored. reflexivity.
Defined.

(** X6: after a cart-create that inserted a new item, the list of the items
    of the payload's owner is the list from before followed by the new
    item. *)
Theorem cart_post_then_list_by_owner
    (store : list CartDoc) (cart : Cart) (oid : ObjectId) :
  List.find (same_item cart) store = None ->
  ~ In oid (map _id store) ->
  response (run (get_by_email (email cart)) (stored (run (post cart oid) store)))
    = Some (200, JArray (map toJSON (filter (by_email (email cart)) store
                                     ++ [new_CartModel oid cart]))).
Proof.
  intros Hfind Hfresh.
  rewrite (post_insert_run store cart oid Hfind (fresh_id _ _ Hfresh)).
  rewrite stored_pair. cbn [db].
  unfold run, get_by_email, try_catch, bind, Mongoose.find, response. cbn.
  rewrite filter_app. cbn. unfold by_email at 2. cbn. now rewrite String.eqb_refl.
Qed.

Lemma cart_post_then_list_by_owner_witness :
  response (run (get_by_email "worapakorn@gmail.com")
                (stored (run (post sample_new_pair "65a4") sample_carts)))
    = Some (200, JArray (map toJSON
        [mkCartDoc "65a1" (mkCart "p1" "Macbook Pro" "worapakorn@gmail.com" "macbook.png" 2000 5);
         mkCartDoc "65a2" (mkCart "p2" "Mouse" "worapakorn@gmail.com" "mouse.png" 20 1);
         mkCartDoc "65a4" sample_new_pair])).
Proof.
  apply (cart_post_then_list_by_owner sample_carts sample_new_pair "65a4");
    [reflexivity | simpl; intuition discriminate].
Defined.

(** X7: once an owner's cart is cleared, the list of that owner's items is
    the empty array, with status 200, and clearing again answers 404
    "Empty cart". *)
Theorem cart_clear_then_empty (store : list CartDoc) (e : string) :
  response (run (get_by_email e) (stored (run (delete_clear e) store)))
    = Some (200, JArray []) /\
  response (run (delete_clear e) (stored (run (delete_clear e) store)))
    = Some (404, message_body "Empty cart") /\
  stored (run (delete_clear e) (stored (run (delete_clear e) store)))
    = stored (run (delete_clear e) store).
Proof.
  rewrite (delete_clear_run store e), !stored_pair. cbn [db].
  split; [|split].
  - unfold run, get_by_email, try_catch, bind, Mongoose.find, response. cbn.
    now rewrite filter_filter_negb.
  - rewrite delete_clear_run. unfold response. cbn [fst res].
    now rewrite filter_filter_negb.
  - rewrite delete_clear_run. unfold stored. cbn [fst db].
    assert (Hnone : existsb (by_email e)
                      (filter (fun d => negb (by_email e d)) store) = false).
    { destruct (existsb _ _) eqn:Hex; [|reflexivity].
      apply existsb_exists in Hex as (d & Hd & Hm).
      apply filter_In in Hd as [_ Hd]. rewrite Hm in Hd. discriminate. }
    now destruct (filter_none _ _ Hnone).
Qed.

(** X8: every route that writes to the cart collection keeps the ids of its
    documents pairwise distinct. *)
Theorem cart_routes_preserve_unique_ids (store : list CartDoc) :
  unique_ids store ->
  (forall cart oid, unique_ids (stored (run (post cart oid) store))) /\
  (forall i body, unique_ids (stored (run (put i body) store))) /\
  (forall i, unique_ids (stored (run (delete_by_id i) store))) /\
  (forall e, unique_ids (stored (run (delete_clear e) store))).
Proof.
  intros Huniq. split; [|split; [|split]].
  - intros cart oid. now apply cart_post_preserves_unique_ids.
  - intros i body. unfold unique_ids.
    assert (Hst : stored (run (put i body) store)
                  = fst (Mongoose.update_first (Mongoose.has_id i) (assign body) store)).
    { unfold run, put, try_catch, bind, Mongoose.findByIdAndUpdate, stored.
      cbn [db res]. now destruct (List.find (Mongoose.has_id i) store). }
    rewrite Hst, (update_first_map (@_id CartDoc Document_CartDoc) (Mongoose.has_id i)
                   (assign body) store (fun x => eq_refl)). exact Huniq.
  - intros i. unfold unique_ids.
    assert (Hst : stored (run (delete_by_id i) store)
                  = Mongoose.remove_first (Mongoose.has_id i) store).
    { unfold run, delete_by_id, try_catch, bind, Mongoose.findByIdAndDelete, stored.
      cbn [db res]. now destruct (List.find (Mongoose.has_id i) store). }
    rewrite Hst. now apply NoDup_map_remove_first.
  - intros e. rewrite delete_clear_run. unfold stored, unique_ids. cbn [fst db].
    now apply NoDup_map_filter.
Qed.

Lemma cart_routes_preserve_unique_ids_witness :
  unique_ids (stored (run (post sample_stored_pair "65a1") sample_carts)) /\
  unique_ids (stored (run (delete_clear "other@gmail.com") sample_carts)).
Proof.
  destruct (cart_routes_preserve_unique_ids sample_carts) as (Hpost & _ & _ & Hclear);
    [unfold unique_ids; concrete_nodup|].
  split; [apply Hpost | apply Hclear].
Defined.

(** X9: the two delete routes keep the one-item-per-pair invariant. *)
Theorem cart_deletes_preserve_one_per_pair (store : list CartDoc) :
  one_per_pair store ->
  (forall i, one_per_pair (stored (run (delete_by_id i) store))) /\
  (forall e, one_per_pair (stored (run (delete_clear e) store))).
Proof.
  unfold one_per_pair. intros Hinv. split.
  - intros i.
    assert (Hst : stored (run (delete_by_id i) store)
                  = Mongoose.remove_first (Mongoose.has_id i) store).
    { unfold run, delete_by_id, try_catch, bind, Mongoose.findByIdAndDelete, stored.
      cbn [db res]. now destruct (List.find (Mongoose.has_id i) store). }
    rewrite Hst. now apply NoDup_map_remove_first.
  - intros e. rewrite delete_clear_run. unfold stored. cbn [fst db].
    now apply NoDup_map_filter.
Qed.

Lemma cart_deletes_preserve_one_per_pair_witness :
  one_per_pair (stored (run (delete_by_id "65a1") sample_carts)) /\
  one_per_pair (stored (run (delete_clear "other@gmail.com") sample_carts)).
Proof.
  destruct (cart_deletes_preserve_one_per_pair sample_carts) as (Hdel & Hclear);
    [unfold one_per_pair; concrete_nodup|].
  split; [apply Hdel | apply Hclear].
Defined.

(** X10: cart-create always answers, exactly once and inside its own
    try/catch: the status is 200, 201 or 500, no rejection escapes, and
    where the status is 500 the collection is as it was. *)
Theorem cart_post_always_answers
    (store : list CartDoc) (cart : Cart) (oid : ObjectId) :
  uncaught (run (post cart oid) store) = None /\
  exists code body,
    response (run (post cart oid) store) = Some (code, body) /\
    (code = 200 \/ code = 201 \/
     code = 500 /\ stored (run (post cart oid) store) = store).
Proof.
  unfold run, post, try_catch, bind, Mongoose.findOne, uncaught, response, stored.
  cbn [db].
  destruct (List.find (same_item cart) store) as [d|] eqn:Hfind.
  - unfold Mongoose.save_modified. cbn [db res].
    apply find_some in Hfind as [Hin _].
    pose proof (update_first_hits
                  (set_quantity (PrimFloat.add (quantity (fields d)) (quantity cart))) store d Hin) as Hhit.
    change (_id (set_quantity (PrimFloat.add (quantity (fields d)) (quantity cart)) d)) with (_id d).
    destruct (Mongoose.update_first _ _ store) as [l hit]. cbn in Hhit. subst hit.
    cbn. split; [reflexivity|]. eauto.
  - unfold Mongoose.save_new. cbn [db res].
    destruct (existsb _ store); cbn; split; try reflexivity; eauto 8.
Qed.

End CartRoutes.

Lemma NoDup_map_before {D K} (f : D -> K) (l1 l2 : list D) (d x : D) :
  NoDup (map f (l1 ++ d :: l2)) -> In x l1 -> f x <> f d.
Proof.
  rewrite map_app. simpl. intros Hn Hx Hf.
  apply NoDup_remove_2 in Hn. apply Hn, in_or_app. left.
  rewrite <- Hf. now apply in_map.
Qed.

(** ** Users: the other routes and how the routes compose *)

Section UserRoutes.
Import UserRouter.

Lemma user_patch_at_run (l1 l2 : list UserDoc) (d : UserDoc) (r : string) :
  unique_ids (l1 ++ d :: l2) ->
  run (patch_role r (id d)) (l1 ++ d :: l2) =
    ({| db := l1 ++ assign_role r d :: l2;
        res := {| Express.statusCode := 200;
                  Express.sent := Some (200, toJSON (assign_role r d)) |} |},
     Normal tt).
Proof.
  intros Huniq. pose proof (unique_ids_before l1 l2 d Huniq) as Hbefore.
  assert (Hd : Mongoose.has_id (_id d) d = true) by now apply has_id_true.
  unfold run, patch_role, try_catch, bind, Mongoose.findByIdAndUpdate. cbn [db res].
  change (id d) with (_id d).
  rewrite (find_at _ _ l2 _ Hbefore Hd), (update_first_at _ _ _ l2 _ Hbefore Hd).
  reflexivity.
Qed.

Lemma user_patch_missing_run (users : list UserDoc) (i : ObjectId) (r : string) :
  ~ In i (map _id users) ->
  run (patch_role r i) users =
    ({| db := users;
        res := {| Express.statusCode := 404;
                  Express.sent := Some (404, message_body "User not found") |} |},
     Normal tt).
Proof.
  intros Habsent. apply absent_id in Habsent.
  unfold run, patch_role, try_catch, bind, Mongoose.findByIdAndUpdate. cbn [db res].
  rewrite Habsent, (update_first_none _ _ _ Habsent). reflexivity.
Qed.

Lemma user_put_found_run (users : list UserDoc) (d : UserDoc) (body : User) :
  unique_ids users -> In d users ->
  exists l1 l2,
    users = l1 ++ d :: l2 /\
    run (put (id d) body) users =
      ({| db := l1 ++ assign body d :: l2;
          res := {| Express.statusCode := 200;
                    Express.sent := Some (200, toJSON (assign body d)) |} |},
       Normal tt).
Proof.
  intros Huniq Hin.
  destruct (located _ _ Huniq Hin) as (l1 & l2 & Hl & Hfind & _ & Hupd & _).
  exists l1, l2. split; [exact Hl|].
  unfold run, put, try_catch, bind, Mongoose.findByIdAndUpdate. cbn [db res].
  change (id d) with (_id d). rewrite Hfind, Hupd. reflexivity.
Qed.

Lemma user_put_missing_run (users : list UserDoc) (i : ObjectId) (body : User) :
  ~ In i (map _id users) ->
  run (put i body) users =
    ({| db := users;
        res := {| Express.statusCode := 404;
                  Express.sent := Some (404, message_body "User not found") |} |},
     Normal tt).
Proof.
  intros Habsent. apply absent_id in Habsent.
  unfold run, put, try_catch, bind, Mongoose.findByIdAndUpdate. cbn [db res].
  rewrite Habsent, (update_first_none _ _ _ Habsent). reflexivity.
Qed.

(** POST /users for a free email and an id that is already stored: the
    insert is rejected and the collection stays. *)
Lemma user_post_rejected_run (users : list UserDoc) (user : User) (oid : ObjectId) :
  List.find (by_email (email user)) users = None ->
  existsb (Mongoose.has_id oid) users = true ->
  stored (run (post user oid) users) = users.
Proof.
  intros Hfind Hdup.
  unfold run, post, try_catch, bind, Mongoose.findOne, stored. cbn [db].
  rewrite Hfind. cbn [truthy Truthy_option].
  unfold Mongoose.save_new. cbn [db res].
  match goal with
  | |- context [new_UserModel oid ?u] =>
      change (_id (new_UserModel oid u)) with oid
  end.
  rewrite Hdup. reflexivity.
Qed.

(** X11: user-create keeps the emails of the stored users pairwise
    distinct. *)
Theorem user_post_preserves_one_per_email
    (users : list UserDoc) (user : User) (oid : ObjectId) :
  one_per_email users ->
  one_per_email (stored (run (post user oid) users)).
Proof.
  unfold one_per_email. intros Hinv.
  destruct (List.find (by_email (email user)) users) as [u|] eqn:Hfind.
  - now rewrite (user_post_exists_run users user oid u Hfind).
  - destruct (existsb (Mongoose.has_id oid) users) eqn:Hdup.
    + now rewrite (user_post_rejected_run users user oid Hfind Hdup).
    + destruct (user_post_insert_run users user oid Hfind Hdup)
        as (doc & Hrun & _ & _ & Hemail & _).
      rewrite Hrun, stored_pair. cbn [db]. rewrite map_app. cbn [map].
      apply NoDup_snoc; [exact Hinv|]. rewrite Hemail.
      intros Hin. apply in_map_iff in Hin as (x & Hx & Hin).
      apply (find_none _ _ Hfind) in Hin. unfold by_email in Hin.
      apply String.eqb_neq in Hin. contradiction.
Qed.

Lemma user_post_preserves_one_per_email_witness :
  one_per_email (stored (run (post sample_new_user "65b3") sample_users)) /\
  one_per_email
    (stored (run (post (mkUser "Again" "guest@gmail.com" None None) "65b3") sample_users)).
Proof.
  split; apply user_post_preserves_one_per_email;
    unfold one_per_email; concrete_nodup.
Defined.

(** X12: after a user-create that inserted a user, a second user-create
    with the same email answers 302 "User already exists" and stores
    nothing. *)
Theorem user_post_twice_conflicts
    (users : list UserDoc) (user user' : User) (oid oid' : ObjectId) :
  (forall u, In u users -> email (fields u) <> email user) ->
  ~ In oid (map _id users) ->
  email user' = email user ->
  response (run (post user' oid') (stored (run (post user oid) users)))
    = Some (302, message_body "User already exists") /\
  stored (run (post user' oid') (stored (run (post user oid) users)))
    = stored (run (post user oid) users).
Proof.
  intros Hnone Hfresh Hsame. apply by_email_none in Hnone.
  destruct (user_post_insert_run users user oid Hnone (fresh_id _ _ Hfresh))
    as (doc & Hrun & _ & _ & Hemail & _).
  rewrite Hrun, !stored_pair. cbn [db].
  assert (Hfind : List.find (by_email (email user')) (users ++ [doc]) = Some doc).
  { rewrite Hsame. apply find_at; [now apply find_none_before|].
    unfold by_email. rewrite Hemail. apply String.eqb_refl. }
  rewrite (user_post_exists_run _ user' oid' doc Hfind). split; reflexivity.
Qed.

Lemma user_post_twice_conflicts_witness :
  response (run (post (mkUser "Other" "new@gmail.com" (Some "x.jpg") (Some "admin")) "65b4")
                (stored (run (post sample_new_user "65b3") sample_users)))
    = Some (302, message_body "User already exists").
Proof.
  apply (user_post_twice_conflicts sample_users sample_new_user
           (mkUser "Other" "new@gmail.com" (Some "x.jpg") (Some "admin")) "65b3" "65b4");
    [simpl; intros u Hu; intuition (subst; discriminate)
    | simpl; intuition discriminate | reflexivity].
Defined.

(** X13: after a user-create that inserted a user, get-user-by-id with the
    id it was given answers 200 with the document that the create answered,
    and no rejection escapes. *)
Theorem user_post_then_get_by_id
    (users : list UserDoc) (user : User) (oid : ObjectId) :
  (forall u, In u users -> email (fields u) <> email user) ->
  ~ In oid (map _id users) ->
  exists doc : UserDoc,
    response (run (post user oid) users) = Some (201, toJSON doc) /\
    response (run (get_by_id oid) (stored (run (post user oid) users)))
      = Some (200, toJSON doc) /\
    uncaught (run (get_by_id oid) (stored (run (post user oid) users))) = None.
Proof.
  intros Hnone Hfresh. apply by_email_none in Hnone.
  destruct (user_post_insert_run users user oid Hnone (fresh_id _ _ Hfresh))
    as (doc & Hrun & Hid & _).
  exists doc. rewrite Hrun, !stored_pair. cbn [db]. split; [reflexivity|].
  assert (Hfind : List.find (Mongoose.has_id oid) (users ++ [doc]) = Some doc).
  { apply find_at; [now apply fresh_before | now apply has_id_true]. }
  unfold run, get_by_id, try_catch, bind, Mongoose.findById, Mongoose.findOne,
    response, uncaught.
  cbn [db]. rewrite Hfind. split; reflexivity.
Qed.

Lemma user_post_then_get_by_id_witness :
  exists doc : UserDoc,
    response (run (post sample_new_user "65b3") sample_users) = Some (201, toJSON doc) /\
    response (run (get_by_id "65b3") (stored (run (post sample_new_user "65b3") sample_users)))
      = Some (200, toJSON doc) /\
    uncaught (run (get_by_id "65b3") (stored (run (post sample_new_user "65b3") sample_users)))
      = None.
Proof.
  apply (user_post_then_get_by_id sample_users sample_new_user "65b3");
    [simpl; intros u Hu; intuition (subst; discriminate)
    | simpl; intuition discriminate].
Defined.

(** X14: the two role routes set the role of the stored user with the given
    id, to "admin" and to "user", keep its other fields, its id and its
    place, touch no other user and answer 200 with the user as updated; for
    an id that is not stored they answer 404 "User not found" and change
    nothing. *)
Theorem user_patch_role_contract (users : list UserDoc) (i : ObjectId) :
  (forall d, unique_ids users -> In d users -> id d = i ->
   exists l1 l2,
     users = l1 ++ d :: l2 /\
     stored (run (patch_admin i) users)
       = l1 ++ mkUserDoc i (mkUser (name (fields d)) (email (fields d))
                                   (photoURL (fields d)) (Some "admin")) :: l2 /\
     stored (run (patch_user i) users)
       = l1 ++ mkUserDoc i (mkUser (name (fields d)) (email (fields d))
                                   (photoURL (fields d)) (Some "user")) :: l2 /\
     response (run (patch_admin i) users)
       = Some (200, toJSON (mkUserDoc i (mkUser (name (fields d)) (email (fields d))
                                                (photoURL (fields d)) (Some "admin")))) /\
     response (run (patch_user i) users)
       = Some (200, toJSON (mkUserDoc i (mkUser (name (fields d)) (email (fields d))
                                                (photoURL (fields d)) (Some "user"))))) /\
  (~ In i (map _id users) ->
   response (run (patch_admin i) users) = Some (404, message_body "User not found") /\
   response (run (patch_user i) users) = Some (404, message_body "User not found") /\
   stored (run (patch_admin i) users) = users /\
   stored (run (patch_user i) users) = users).
Proof.
  unfold patch_admin, patch_user. split.
  - intros d Huniq Hin <-.
    destruct (in_split _ _ Hin) as (l1 & l2 & ->).
    exists l1, l2. split; [reflexivity|].
    rewrite !(user_patch_at_run l1 l2 d _ Huniq). repeat split; reflexivity.
  - intros Habsent.
    rewrite !(user_patch_missing_run users i _ Habsent). repeat split; reflexivity.
Qed.

Lemma user_patch_role_contract_witness :
  stored (run (patch_admin "65b2") sample_users)
    = [mkUserDoc "65b1" (mkUser "Worapakorn" "worapakorn@gmail.com" (Some "me.jpg") (Some "admin"));
       mkUserDoc "65b2" (mkUser "Guest" "guest@gmail.com" (Some "guest.jpg") (Some "admin"))] /\
  response (run (patch_user "65b9") sample_users)
    = Some (404, message_body "User not found").
Proof.
  split.
  - destruct (user_patch_role_contract sample_users "65b2") as (Hfound & _).
    destruct (Hfound (mkUserDoc "65b2"
                (mkUser "Guest" "guest@gmail.com" (Some "guest.jpg") (Some "user"))))
      as (l1 & l2 & _);
      [unfold unique_ids; concrete_nodup | right; left; reflexivity | reflexivity |].
    reflexivity.
  - destruct (user_patch_role_contract sample_users "65b9") as (_ & Hmissing).
    apply Hmissing. simpl. intuition discriminate.
Defined.

(** X15: after the admin role route has updated a stored user, is-admin for
    that user's email answers [{ isAdmin: true }]; after the user role route
    it answers [{ isAdmin: false }]. *)
Theorem user_patch_then_is_admin (users : list UserDoc) (d : UserDoc) :
  unique_ids users -> one_per_email users -> In d users ->
  response (run (get_admin (email (fields d)))
                (stored (run (patch_admin (id d)) users)))
    = Some (200, JObject [("isAdmin", JBool true)]) /\
  response (run (get_admin (email (fields d)))
                (stored (run (patch_user (id d)) users)))
    = Some (200, JObject [("isAdmin", JBool false)]).
Proof.
  intros Huniq Hemails Hin.
  destruct (in_split _ _ Hin) as (l1 & l2 & ->).
  assert (Hbefore : forallb (fun x => negb (by_email (email (fields d)) x)) l1 = true).
  { apply forallb_forall. intros x Hx. apply negb_true_iff. unfold by_email.
    apply String.eqb_neq.
    exact (NoDup_map_before (fun u => email (fields u)) l1 l2 d x Hemails Hx). }
  assert (Hfind : forall r,
    List.find (by_email (email (fields d))) (l1 ++ assign_role r d :: l2)
    = Some (assign_role r d)).
  { intros r. apply find_at; [exact Hbefore|]. unfold by_email. cbn.
    apply String.eqb_refl. }
  unfold patch_admin, patch_user.
  rewrite !(user_patch_at_run l1 l2 d _ Huniq), !stored_pair. cbn [db].
  unfold run, get_admin, try_catch, bind, Mongoose.findOne, response. cbn [db].
  rewrite !Hfind. split; reflexivity.
Qed.

Lemma user_patch_then_is_admin_witness :
  response (run (get_admin "guest@gmail.com")
                (stored (run (patch_admin "65b2") sample_users)))
    = Some (200, JObject [("isAdmin", JBool true)]) /\
  response (run (get_admin "guest@gmail.com")
                (stored (run (patch_user "65b2") sample_users)))
    = Some (200, JObject [("isAdmin", JBool false)]).
Proof.
  apply (user_patch_then_is_admin sample_users
           (mkUserDoc "65b2" (mkUser "Guest" "guest@gmail.com" (Some "guest.jpg") (Some "user"))));
    [unfold unique_ids; concrete_nodup | unfold one_per_email; concrete_nodup
    | right; left; reflexivity].
Defined.

(** X16: PUT /users/:id assigns to the stored user with that id the name
    and email of the body and those of photoURL and role that the body has;
    a photoURL or role that the body leaves out stays as stored.  It keeps
    the id and the place, touches no other user and answers 200 with the
    user as updated; for an id that is not stored it answers 404 "User not
    found" and changes nothing. *)
Theorem user_put_contract (users : list UserDoc) (i : ObjectId) (body : User) :
  (forall d, unique_ids users -> In d users -> id d = i ->
   exists d' l1 l2,
     users = l1 ++ d :: l2 /\
     stored (run (put i body) users) = l1 ++ d' :: l2 /\
     response (run (put i body) users) = Some (200, toJSON d') /\
     id d' = i /\
     name (fields d') = name body /\
     email (fields d') = email body /\
     (forall s, photoURL body = Some s -> photoURL (fields d') = Some s) /\
     (forall s, role body = Some s -> role (fields d') = Some s) /\
     (photoURL body = None -> photoURL (fields d') = photoURL (fields d)) /\
     (role body = None -> role (fields d') = role (fields d))) /\
  (~ In i (map _id users) ->
   response (run (put i body) users) = Some (404, message_body "User not found") /\
   stored (run (put i body) users) = users).
Proof.
  split.
  - intros d Huniq Hin <-.
    destruct (user_put_found_run users d body Huniq Hin) as (l1 & l2 & Hl & Hrun).
    exists (assign body d), l1, l2. rewrite Hrun. split; [exact Hl|].
    repeat split; cbn; try (intros s ->); try (intros ->); reflexivity.
  - intros Habsent. rewrite (user_put_missing_run users i body Habsent).
    split; reflexivity.
Qed.

Lemma user_put_contract_witness :
  stored (run (put "65b1" (mkUser "W. J." "wj@gmail.com" None None)) sample_users)
    = [mkUserDoc "65b1" (mkUser "W. J." "wj@gmail.com" (Some "me.jpg") (Some "admin"));
       mkUserDoc "65b2" (mkUser "Guest" "guest@gmail.com" (Some "guest.jpg") (Some "user"))] /\
  stored (run (put "65b9" sample_new_user) sample_users) = sample_users.
Proof.
  split.
  - destruct (user_put_contract sample_users "65b1" (mkUser "W. J." "wj@gmail.com" None None))
      as (Hfound & _).
    destruct (Hfound (mkUserDoc "65b1"
                (mkUser "Worapakorn" "worapakorn@gmail.com" (Some "me.jpg") (Some "admin"))))
      as (d' & l1 & l2 & _);
      [unfold unique_ids; concrete_nodup | left; reflexivity | reflexivity |].
    reflexivity.
  - destruct (user_put_contract sample_users "65b9" sample_new_user) as (_ & Hmissing).
    apply Hmissing. simpl. intuition discriminate.
Defined.

(** X17: DELETE /users/:id removes the stored user with that id, and only
    it, so that no user with that id is left, and answers 200 with the
    removed user; for an id that is not stored it answers 404 "User not
    found" and changes nothing. *)
Theorem user_delete_by_id_contract (users : list UserDoc) (i : ObjectId) :
  (forall d, unique_ids users -> In d users -> id d = i ->
   response (run (delete_by_id i) users) = Some (200, toJSON d) /\
   ~ In i (map _id (stored (run (delete_by_id i) users))) /\
   exists l1 l2,
     users = l1 ++ d :: l2 /\
     stored (run (delete_by_id i) users) = l1 ++ l2) /\
  (~ In i (map _id users) ->
   response (run (delete_by_id i) users) = Some (404, message_body "User not found") /\
   stored (run (delete_by_id i) users) = users).
Proof.
  split.
  - intros d Huniq Hin <-.
    destruct (located _ _ Huniq Hin) as (l1 & l2 & Hl & Hfind & Hrem & _ & Hgone).
    unfold run, delete_by_id, try_catch, bind, Mongoose.findByIdAndDelete,
      response, stored.
    cbn [db res]. change (id d) with (_id d). rewrite Hfind, Hrem. cbn.
    split; [reflexivity|]. split; [exact Hgone|]. exists l1, l2. auto.
  - intros Habsent. apply absent_id in Habsent.
    unfold run, delete_by_id, try_catch, bind, Mongoose.findByIdAndDelete,
      response, stored.
    cbn [db res]. rewrite Habsent, (remove_first_none _ _ Habsent). cbn. auto.
Qed.

Lemma user_delete_by_id_contract_witness :
  stored (run (delete_by_id "65b1") sample_users)
    = [mkUserDoc "65b2" (mkUser "Guest" "guest@gmail.com" (Some "guest.jpg") (Some "user"))] /\
  stored (run (delete_by_id "65b9") sample_users) = sample_users.
Proof.
  split.
  - destruct (user_delete_by_id_contract sample_users "65b1") as (Hfound & _).
    destruct (Hfound (mkUserDoc "65b1"
                (mkUser "Worapakorn" "worapakorn@gmail.com" (Some "me.jpg") (Some "admin"))))
      as (_ & _ & l1 & l2 & _);
      [unfold unique_ids; concrete_nodup | left; reflexivity | reflexivity |].
    reflexivity.
  - destruct (user_delete_by_id_contract sample_users "65b9") as (_ & Hmissing).
    apply Hmissing. simpl. intuition discriminate.
Defined.

End UserRoutes.

(** ** Products: the other routes and how the routes compose *)

Section ProductRoutes.
Import ProductRouter.

Lemma product_post_run (products : list ProductDoc) (body : Product) (oid : ObjectId) :
  ~ In oid (map _id products) ->
  run (post body oid) products =
    ({| db := products ++ [new_ProductModel oid body];
        res := {| Express.statusCode := 201;
                  Express.sent := Some (201, toJSON (new_ProductModel oid body)) |} |},
     Normal tt).
Proof.
  intros Hfresh. apply fresh_id in Hfresh.
  unfold run, post, try_catch, bind, Mongoose.save_new. cbn [db res].
  change (_id (new_ProductModel oid body)) with oid. rewrite Hfresh. reflexivity.
Qed.

Lemma product_get_found_run (l1 l2 : list ProductDoc) (d : ProductDoc) :
  forallb (fun x => negb (Mongoose.has_id (id d) x)) l1 = true ->
  run (get_by_id (id d)) (l1 ++ d :: l2) =
    ({| db := l1 ++ d :: l2;
        res := {| Express.statusCode := 200;
                  Express.sent := Some (200, toJSON d) |} |},
     Normal tt).
Proof.
  intros Hbefore.
  assert (Hd : Mongoose.has_id (id d) d = true) by now apply has_id_true.
  unfold run, get_by_id, try_catch, bind, Mongoose.findById, Mongoose.findOne.
  cbn [db]. rewrite (find_at _ _ l2 _ Hbefore Hd). reflexivity.
Qed.

Lemma product_get_missing_run (products : list ProductDoc) (i : ObjectId) :
  ~ In i (map _id products) ->
  run (get_by_id i) products =
    ({| db := products;
        res := {| Express.statusCode := 404;
                  Express.sent := Some (404, message_body "Product not found") |} |},
     Normal tt).
Proof.
  intros Habsent. apply absent_id in Habsent.
  unfold run, get_by_id, try_catch, bind, Mongoose.findById, Mongoose.findOne.
  cbn [db]. rewrite Habsent. reflexivity.
Qed.

Lemma product_put_at_run (l1 l2 : list ProductDoc) (d : ProductDoc) (body : Product) :
  unique_ids (l1 ++ d :: l2) ->
  run (put (id d) body) (l1 ++ d :: l2) =
    ({| db := l1 ++ assign body d :: l2;
        res := {| Express.statusCode := 200;
                  Express.sent := Some (200, toJSON (assign body d)) |} |},
     Normal tt).
Proof.
  intros Huniq. pose proof (unique_ids_before l1 l2 d Huniq) as Hbefore.
  assert (Hd : Mongoose.has_id (_id d) d = true) by now apply has_id_true.
  unfold run, put, try_catch, bind, Mongoose.findByIdAndUpdate. cbn [db res].
  change (id d) with (_id d).
  rewrite (find_at _ _ l2 _ Hbefore Hd), (update_first_at _ _ _ l2 _ Hbefore Hd).
  reflexivity.
Qed.

(** X18: product-create inserts the body under the generated id and answers
    201 with the new document; get-by-id with that id then answers 200 with
    the same document. *)
Theorem product_post_then_get_by_id
    (products : list ProductDoc) (body : Product) (oid : ObjectId) :
  ~ In oid (map _id products) ->
  stored (run (post body oid) products) = products ++ [mkProductDoc oid body] /\
  response (run (post body oid) products)
    = Some (201, toJSON (mkProductDoc oid body)) /\
  response (run (get_by_id oid) (stored (run (post body oid) products)))
    = Some (200, toJSON (mkProductDoc oid body)).
Proof.
  intros Hfresh. rewrite (product_post_run products body oid Hfresh), !stored_pair.
  cbn [db]. split; [reflexivity|]. split; [reflexivity|].
  change oid with (id (new_ProductModel oid body)) at 1.
  rewrite product_get_found_run; [reflexivity|]. now apply fresh_before.
Qed.

Lemma product_post_then_get_by_id_witness :
  response (run (get_by_id "65c3")
                (stored (run (post (mkProduct "Keyboard" 90 "Keys" "k.png" "Electronics") "65c3")
                             sample_products)))
    = Some (200, toJSON (mkProductDoc "65c3"
                           (mkProduct "Keyboard" 90 "Keys" "k.png" "Electronics"))).
Proof.
  apply (product_post_then_get_by_id sample_products
           (mkProduct "Keyboard" 90 "Keys" "k.png" "Electronics") "65c3").
  simpl. intuition discriminate.
Defined.

(** X19: product-create looks for no existing product: the same body posted
    twice is stored twice, under the two generated ids. *)
Theorem product_post_twice_stores_both
    (products : list ProductDoc) (body : Product) (oid oid' : ObjectId) :
  ~ In oid (map _id products) -> ~ In oid' (map _id products) -> oid <> oid' ->
  stored (run (post body oid') (stored (run (post body oid) products)))
    = products ++ [mkProductDoc oid body; mkProductDoc oid' body] /\
  response (run (post body oid') (stored (run (post body oid) products)))
    = Some (201, toJSON (mkProductDoc oid' body)).
Proof.
  intros Hfresh Hfresh' Hne.
  rewrite (product_post_run products body oid Hfresh), !stored_pair. cbn [db].
  rewrite product_post_run.
  - rewrite stored_pair. cbn [db]. rewrite <- app_assoc. split; reflexivity.
  - rewrite map_app. intros Hin. apply in_app_or in Hin as [Hin | [Hin | []]].
    + now apply Hfresh'.
    + now apply Hne.
Qed.

Lemma product_post_twice_stores_both_witness :
  stored (run (post (mkProduct "Mouse" 20 "A mouse" "mouse.png" "Electronics") "65c4")
              (stored (run (post (mkProduct "Mouse" 20 "A mouse" "mouse.png" "Electronics") "65c3")
                           sample_products)))
    = sample_products ++
      [mkProductDoc "65c3" (mkProduct "Mouse" 20 "A mouse" "mouse.png" "Electronics");
       mkProductDoc "65c4" (mkProduct "Mouse" 20 "A mouse" "mouse.png" "Electronics")].
Proof.
  apply (product_post_twice_stores_both sample_products
           (mkProduct "Mouse" 20 "A mouse" "mouse.png" "Electronics") "65c3" "65c4");
    [simpl; intuition discriminate | simpl; intuition discriminate | discriminate].
Defined.

(** X20: product get-by-id answers 200 with the stored product that has the
    given id, and 404 "Product not found" for an id that is not stored; in
    both cases it answers once, no rejection escapes and the collection is
    as it was. *)
Theorem product_get_by_id_contract (products : list ProductDoc) (i : ObjectId) :
  (forall d, unique_ids products -> In d products -> id d = i ->
   response (run (get_by_id i) products) = Some (200, toJSON d) /\
   uncaught (run (get_by_id i) products) = None /\
   stored (run (get_by_id i) products) = products) /\
  (~ In i (map _id products) ->
   response (run (get_by_id i) products)
     = Some (404, message_body "Product not found") /\
   uncaught (run (get_by_id i) products) = None /\
   stored (run (get_by_id i) products) = products).
Proof.
  split.
  - intros d Huniq Hin <-. destruct (in_split _ _ Hin) as (l1 & l2 & ->).
    rewrite (product_get_found_run l1 l2 d (unique_ids_before l1 l2 d Huniq)).
    repeat split; reflexivity.
  - intros Habsent. rewrite (product_get_missing_run products i Habsent).
    repeat split; reflexivity.
Qed.

Lemma product_get_by_id_contract_witness :
  response (run (get_by_id "65c2") sample_products)
    = Some (200, toJSON (mkProductDoc "65c2"
                           (mkProduct "Mouse" 20 "A mouse" "mouse.png" "Electronics"))) /\
  response (run (get_by_id "65c9") sample_products)
    = Some (404, message_body "Product not found") /\
  uncaught (run (get_by_id "65c9") sample_products) = None.
Proof.
  split.
  - destruct (product_get_by_id_contract sample_products "65c2") as (Hfound & _).
    destruct (Hfound (mkProductDoc "65c2"
                (mkProduct "Mouse" 20 "A mouse" "mouse.png" "Electronics")))
      as (Hres & _);
      [unfold unique_ids; concrete_nodup | right; left; reflexivity | reflexivity |].
    exact Hres.
  - destruct (product_get_by_id_contract sample_products "65c9") as (_ & Hmissing).
    destruct Hmissing as (Hres & Hun & _); [simpl; intuition discriminate|].
    split; assumption.
Defined.

(** X21: PUT /products/:id replaces the fields of the stored product with
    that id by the body, keeps its id and its place, touches no other
    product and answers 200 with the product as updated, which get-by-id
    then answers too; for an id that is not stored it answers 404 "Product
    not found" and changes nothing. *)
Theorem product_put_contract (products : list ProductDoc) (i : ObjectId) (body : Product) :
  (forall d, unique_ids products -> In d products -> id d = i ->
   response (run (put i body) products) = Some (200, toJSON (mkProductDoc i body)) /\
   response (run (get_by_id i) (stored (run (put i body) products)))
     = Some (200, toJSON (mkProductDoc i body)) /\
   exists l1 l2,
     products = l1 ++ d :: l2 /\
     stored (run (put i body) products) = l1 ++ mkProductDoc i body :: l2) /\
  (~ In i (map _id products) ->
   response (run (put i body) products)
     = Some (404, message_body "Product not found") /\
   stored (run (put i body) products) = products).
Proof.
  split.
  - intros d Huniq Hin <-. destruct (in_split _ _ Hin) as (l1 & l2 & ->).
    rewrite (product_put_at_run l1 l2 d body Huniq), !stored_pair. cbn [db].
    split; [reflexivity|]. split; [|exists l1, l2; split; reflexivity].
    change (id d) with (id (assign body d)).
    rewrite product_get_found_run; [reflexivity|].
    exact (unique_ids_before l1 l2 d Huniq).
  - intros Habsent. apply absent_id in Habsent.
    unfold run, put, try_catch, bind, Mongoose.findByIdAndUpdate, response, stored.
    cbn [db res]. rewrite Habsent, (update_first_none _ _ _ Habsent). cbn. auto.
Qed.

Lemma product_put_contract_witness :
  response (run (get_by_id "65c1")
                (stored (run (put "65c1" (mkProduct "Macbook Air" 1500 "Light" "air.png" "Electronics"))
                             sample_products)))
    = Some (200, toJSON (mkProductDoc "65c1"
                           (mkProduct "Macbook Air" 1500 "Light" "air.png" "Electronics"))) /\
  stored (run (put "65c9" (mkProduct "Macbook Air" 1500 "Light" "air.png" "Electronics"))
              sample_products) = sample_products.
Proof.
  split.
  - destruct (product_put_contract sample_products "65c1"
                (mkProduct "Macbook Air" 1500 "Light" "air.png" "Electronics")) as (Hfound & _).
    destruct (Hfound (mkProductDoc "65c1"
                (mkProduct "Macbook Pro" 2000 "A great laptop" "macbook.png" "Electronics")))
      as (_ & Hget & _);
      [unfold unique_ids; concrete_nodup | left; reflexivity | reflexivity |].
    exact Hget.
  - destruct (product_put_contract sample_products "65c9"
                (mkProduct "Macbook Air" 1500 "Light" "air.png" "Electronics")) as (_ & Hmissing).
    apply Hmissing. simpl. intuition discriminate.
Defined.

(** X22: once a stored product is deleted by its id, get-by-id with that id
    answers 404 "Product not found", and so does a second delete, which
    changes nothing more. *)
Theorem product_delete_then_missing (products : list ProductDoc) (d : ProductDoc) :
  unique_ids products -> In d products ->
  response (run (get_by_id (id d)) (stored (run (delete_by_id (id d)) products)))
    = Some (404, message_body "Product not found") /\
  response (run (delete_by_id (id d)) (stored (run (delete_by_id (id d)) products)))
    = Some (404, message_body "Product not found") /\
  stored (run (delete_by_id (id d)) (stored (run (delete_by_id (id d)) products)))
    = stored (run (delete_by_id (id d)) products).
Proof.
  intros Huniq Hin.
  destruct (located _ _ Huniq Hin) as (l1 & l2 & Hl & Hfind & Hrem & _ & Hgone).
  assert (Hst : stored (run (delete_by_id (id d)) products) = l1 ++ l2).
  { unfold run, delete_by_id, try_catch, bind, Mongoose.findByIdAndDelete, stored.
    cbn [db res]. change (id d) with (_id d). now rewrite Hfind, Hrem. }
  rewrite !Hst. split; [now rewrite product_get_missing_run|].
  pose proof (absent_id _ _ Hgone) as Habsent.
  unfold run, delete_by_id, try_catch, bind, Mongoose.findByIdAndDelete,
    response, stored.
  cbn [db res]. change (id d) with (_id d).
  rewrite Habsent, (remove_first_none _ _ Habsent). cbn. auto.
Qed.

Lemma product_delete_then_missing_witness :
  response (run (get_by_id "65c1") (stored (run (delete_by_id "65c1") sample_products)))
    = Some (404, message_body "Product not found").
Proof.
  apply (product_delete_then_missing sample_products
           (mkProductDoc "65c1"
              (mkProduct "Macbook Pro" 2000 "A great laptop" "macbook.png" "Electronics")));
    [unfold unique_ids; concrete_nodup | left; reflexivity].
Defined.

End ProductRoutes.

(** ** Listing a collection *)

Lemma filter_all {A} (l : list A) : filter (fun _ => true) l = l.
Proof. induction l as [|a l IH]; simpl; [reflexivity | now rewrite IH]. Qed.

(** X23: the three list-all routes answer 200 with every document of their
    collection, in stored order, also when there is none; they change
    nothing and no rejection escapes. *)
Theorem get_all_lists_everything :
  (forall store : list CartRouter.CartDoc,
     response (run CartRouter.get_all store) = Some (200, JArray (map toJSON store)) /\
     stored (run CartRouter.get_all store) = store /\
     uncaught (run CartRouter.get_all store) = None) /\
  (forall users : list UserRouter.UserDoc,
     response (run UserRouter.get_all users) = Some (200, JArray (map toJSON users)) /\
     stored (run UserRouter.get_all users) = users /\
     uncaught (run UserRouter.get_all users) = None) /\
  (forall products : list ProductRouter.ProductDoc,
     response (run ProductRouter.get_all products)
       = Some (200, JArray (map toJSON products)) /\
     stored (run ProductRouter.get_all products) = products /\
     uncaught (run ProductRouter.get_all products) = None).
Proof.
  split; [|split]; intros l;
    unfold run, CartRouter.get_all, UserRouter.get_all, ProductRouter.get_all,
      try_catch, bind, Mongoose.find, response, stored, uncaught;
    cbn; rewrite filter_all; auto.
Qed.

(** ** The response written twice *)

(** X24: get-user-by-id for an id that is not stored goes on after its 404
    and writes to the sent response: the rejection "Cannot set headers after
    they are sent to the client" escapes the handler, its [catch] block
    included.  For a stored id nothing escapes. *)
Theorem user_get_by_id_rejection (users : list UserRouter.UserDoc) (i : ObjectId) :
  (~ In i (map _id users) ->
   uncaught (run (UserRouter.get_by_id i) users)
     = Some Express.ERR_HTTP_HEADERS_SENT) /\
  (forall u, List.find (Mongoose.has_id i) users = Some u ->
   uncaught (run (UserRouter.get_by_id i) users) = None /\
   response (run (UserRouter.get_by_id i) users) = Some (200, toJSON u)).
Proof.
  split.
  - intros Habsent. apply absent_id in Habsent.
    now rewrite (user_get_by_id_missing_run users i Habsent).
  - intros u Hfind.
    unfold run, UserRouter.get_by_id, try_catch, bind, Mongoose.findById,
      Mongoose.findOne, uncaught, response.
    cbn [db]. rewrite Hfind. split; reflexivity.
Qed.

Lemma user_get_by_id_rejection_witness :
  uncaught (run (UserRouter.get_by_id "65b9") UserRouter.sample_users)
    = Some Express.ERR_HTTP_HEADERS_SENT /\
  uncaught (run (UserRouter.get_by_id "65b2") UserRouter.sample_users) = None.
Proof.
  destruct (user_get_by_id_rejection UserRouter.sample_users "65b9") as (Hmissing & _).
  destruct (user_get_by_id_rejection UserRouter.sample_users "65b2") as (_ & Hfound).
  split.
  - apply Hmissing. simpl. intuition discriminate.
  - destruct (Hfound _ eq_refl) as (Hun & _). exact Hun.
Defined.
